(** * createCheckout: the checkout-session handler of netlify/functions/createCheckout.js

    The handler is embedded as a function from the host it runs on and the
    event it receives to the outcome of its promise together with the
    effects it performs (calls of the payment provider, lines written with
    console.error).

    Values are JavaScript values; numbers are IEEE 754 binary64 values
    ([spec_float] of the Standard Library).  What the handler takes from
    its surroundings (the JSON built-ins, the Stripe client, process.env,
    the text of the engine's TypeError) is gathered in a record [host]; the
    handler is defined over an arbitrary host, and [Node.host] further down
    is a host in which the built-ins are executable. *)

From Stdlib Require Import ZArith String Ascii List Bool Lia DecimalString.
From Stdlib Require Import Floats.SpecFloat.
From stdpp Require Import base option strings list gmap.

Local Open Scope string_scope.
Local Open Scope Z_scope.

Set Warnings "-register-all".

(** ** JavaScript values *)

Definition number := spec_float.

(** The values that the handler meets: those of JSON, undefined, and the
    instances of the Error classes.  [VObj props] is an ordinary object
    with the own properties [props]; [VError name message] is an Error,
    [message] its own property and [name] the one of its prototype. *)
Inductive value : Type :=
  | VUndefined
  | VNull
  | VBool (b : bool)
  | VNum (n : number)
  | VStr (s : string)
  | VArr (elems : list value)
  | VObj (props : list (string * value))
  | VError (name message : string).

(** The Number value of an integer literal: round to nearest, ties to
    even, in binary64. *)
Definition number_of_Z (z : Z) : number := binary_normalize 53 1024 z 0 false.

Definition ToBoolean (v : value) : bool :=
  match v with
  | VUndefined | VNull => false
  | VBool b => b
  | VNum (S754_zero _) | VNum S754_nan => false
  | VNum _ => true
  | VStr s => negb (String.eqb s EmptyString)
  | VArr _ | VObj _ | VError _ _ => true
  end.

(** [a || b], for an operand [b] whose evaluation has no effect. *)
Definition js_or (a b : value) : value := if ToBoolean a then a else b.

(** [a !== b] for a string literal [b]. *)
Definition strict_neq_str (a : value) (b : string) : bool :=
  match a with
  | VStr s => negb (String.eqb s b)
  | _ => true
  end.

Definition Array_isArray (v : value) : bool :=
  match v with
  | VArr _ => true
  | _ => false
  end.

(** ** Completions and effects *)

(** The outcome of an evaluation: a value, or a thrown value (for an
    awaited promise: its fulfilment value, or its rejection reason). *)
Inductive completion (A : Type) : Type :=
  | Normal (a : A)
  | Throw (e : value).
Arguments Normal {A} a.
Arguments Throw {A} e.

#[global] Instance completion_ret : MRet completion := @Normal.
#[global] Instance completion_bind : MBind completion := fun A B f m =>
  match m with
  | Normal a => f a
  | Throw e => Throw e
  end.

Inductive effect : Type :=
  | Create (params : value)         (* stripe.checkout.sessions.create(params) *)
  | ConsoleError (args : list value). (* console.error(...args) *)

(** A computation with effects: its completion and the effects performed,
    oldest first. *)
Definition M (A : Type) : Type := (completion A * list effect)%type.

#[global] Instance M_ret : MRet M := fun A a => (Normal a, []).
#[global] Instance M_bind : MBind M := fun A B f m =>
  match m with
  | (Normal a, t) => let '(r, t') := f a in (r, (t ++ t')%list)
  | (Throw e, t) => (Throw e, t)
  end.

Definition lift {A} (c : completion A) : M A := (c, []).

Definition perform (e : effect) : M unit := (Normal tt, [e]).

(** try { m } catch (error) { h error } *)
Definition try_catch {A} (m : M A) (h : value -> M A) : M A :=
  match m with
  | (Normal a, t) => (Normal a, t)
  | (Throw e, t) => let '(r, t') := h e in (r, (t ++ t')%list)
  end.

(** ** The host *)

Record host : Type := {
  (** JSON.parse(text), without reviver; [text] is converted to a string
      by the built-in *)
  JSON_parse : value -> completion value;
  (** JSON.stringify(v): a string, or undefined *)
  JSON_stringify : value -> value;
  (** await stripe.checkout.sessions.create(params): the session, or the
      reason of the rejection (or what the call threw) *)
  stripe_checkout_sessions_create : value -> completion value;
  (** process.env *)
  process_env : gmap string string;
  (** message of the TypeError thrown when property [k] of [v], which is
      null or undefined, is read *)
  nullish_read_message : value -> string -> string
}.

Record event : Type := {
  httpMethod : value;
  body : value
}.

(** The object that the handler returns; its field body is
    [response_body] here, [body] being the field of the event. *)
Record response : Type := {
  statusCode : Z;
  response_body : value
}.

(** ** The handler *)

(** [props] are the own properties of an object, in the order in which its
    keys are listed; a name occurs once. *)
Fixpoint has_property (props : list (string * value)) (k : string) : bool :=
  match props with
  | [] => false
  | (k', _) :: rest => String.eqb k' k || has_property rest k
  end.

Fixpoint own_property (props : list (string * value)) (k : string) : value :=
  match props with
  | [] => VUndefined
  | (k', v) :: rest => if String.eqb k' k then v else own_property rest k
  end.

Section Handler.

Variable h : host.

(** [v.k], and [const { k } = v], for a property name [k] that none of
    Object.prototype, Array.prototype, String.prototype, Number.prototype
    and Boolean.prototype defines; such are the names that the handler
    reads (items, name, price, quantity, url, message) and those that it
    writes.  On an array, and on a primitive other than null and undefined,
    such a name reads as undefined; on null and undefined the read throws
    a TypeError. *)
Definition get (v : value) (k : string) : completion value :=
  match v with
  | VUndefined | VNull => Throw (VError "TypeError" (nullish_read_message h v k))
  | VObj props => Normal (own_property props k)
  | VError name message =>
      Normal (if String.eqb k "message" then VStr message
              else if String.eqb k "name" then VStr name
              else VUndefined)
  | VBool _ | VNum _ | VStr _ | VArr _ => Normal VUndefined
  end.

(** process.env.NAME *)
Definition env (name : string) : value :=
  match process_env h !! name with
  | Some s => VStr s
  | None => VUndefined
  end.

(** The callback of [items.map], lines 36-46. *)
Definition line_item (item : value) : completion value :=
  name ← get item "name";
  unit_amount ← get item "price";
  quantity ← get item "quantity";
  mret (VObj [
    ("price_data", VObj [
       ("currency", VStr "usd");
       ("product_data", VObj [("name", name)]);
       ("unit_amount", unit_amount)]);
    ("quantity", js_or quantity (VNum (number_of_Z 1)))]).

(** [items.map(f)] on the elements of an array without holes: the
    callback runs on the elements from left to right, and what it throws
    ends the loop. *)
Definition Array_map (f : value -> completion value) (elems : list value)
  : completion (list value) :=
  mapM f elems.

Definition elements (v : value) : list value :=
  match v with
  | VArr elems => elems
  | _ => []
  end.

(** The argument of stripe.checkout.sessions.create, lines 48-54. *)
Definition session_params (line_items : list value) : value :=
  VObj [
    ("payment_method_types", VArr [VStr "card"]);
    ("line_items", VArr line_items);
    ("mode", VStr "payment");
    ("success_url", js_or (env "SUCCESS_URL") (VStr "https://example.com/success"));
    ("cancel_url", js_or (env "CANCEL_URL") (VStr "https://example.com/cancel"))].

Definition create (params : value) : M value :=
  (stripe_checkout_sessions_create h params, [Create params]).

Definition console_error (args : list value) : M unit :=
  perform (ConsoleError args).

(** The body of the try statement, lines 28-59. *)
Definition try_block (ev : event) : M response :=
  parsed ← lift (JSON_parse h (js_or (body ev) (VStr "{}")));
  items ← lift (get parsed "items");
  if negb (Array_isArray items) then
    mret {| statusCode := 400;
            response_body := JSON_stringify h
              (VObj [("error", VStr "Invalid payload: items must be an array")]) |}
  else
    line_items ← lift (Array_map line_item (elements items));
    session ← create (session_params line_items);
    url ← lift (get session "url");
    mret {| statusCode := 200;
            response_body := JSON_stringify h (VObj [("url", url)]) |}.

(** The catch clause, lines 60-66. *)
Definition catch_clause (error : value) : M response :=
  console_error [VStr "Stripe checkout error:"; error];;
  message ← lift (get error "message");
  mret {| statusCode := 500;
          response_body := JSON_stringify h (VObj [("error", message)]) |}.

(** exports.handler *)
Definition handler (ev : event) : M response :=
  if strict_neq_str (httpMethod ev) "POST" then
    mret {| statusCode := 405; response_body := VStr "Method Not Allowed" |}
  else
    try_catch (try_block ev) catch_clause.

End Handler.

(** ** Observations on outcomes *)

(** The arguments of the calls of the provider, oldest first. *)
Fixpoint creates (t : list effect) : list value :=
  match t with
  | [] => []
  | Create params :: rest => params :: creates rest
  | ConsoleError _ :: rest => creates rest
  end.

(** [v.k1.k2...] *)
Fixpoint get_path (h : host) (v : value) (path : list string) : completion value :=
  match path with
  | [] => Normal v
  | k :: rest => v' ← get h v k; get_path h v' rest
  end.

(** The line item that the callback makes of a name, a price and a
    quantity read from an item. *)
Definition made (name unit_amount quantity : value) : value :=
  VObj [
    ("price_data", VObj [
       ("currency", VStr "usd");
       ("product_data", VObj [("name", name)]);
       ("unit_amount", unit_amount)]);
    ("quantity", js_or quantity (VNum (number_of_Z 1)))].

Definition nullish (v : value) : bool :=
  match v with
  | VUndefined | VNull => true
  | _ => false
  end.

(** The primitive values other than null and undefined. *)
Definition primitive (v : value) : bool :=
  match v with
  | VBool _ | VNum _ | VStr _ => true
  | _ => false
  end.

Definition POST (text : string) : event :=
  {| httpMethod := VStr "POST"; body := VStr text |}.

(** ** An executable host

    The built-ins of the host as ECMA-262 defines them, on the values of
    this file.  A string holds the UTF-8 encoding of its text (a lone
    surrogate as the three bytes of its code unit).  The handler above does
    not depend on any of this: it is here to run the handler on concrete
    requests. *)

Module Node.

Definition code (c : ascii) : Z := Z.of_N (N_of_ascii c).
Definition chr (z : Z) : ascii := ascii_of_N (Z.to_N z).

Definition dquote : ascii := chr 34.
Definition backslash : ascii := chr 92.

Definition string_of_chars (l : list ascii) : string :=
  fold_right String EmptyString l.

Fixpoint chars_of_string (s : string) : list ascii :=
  match s with
  | EmptyString => []
  | String c r => c :: chars_of_string r
  end.

Definition is_digit (c : ascii) : bool := (48 <=? code c) && (code c <=? 57).

Fixpoint take_digits (s : string) : string * string :=
  match s with
  | String c r =>
      if is_digit c then let '(d, r') := take_digits r in (String c d, r')
      else (EmptyString, s)
  | EmptyString => (EmptyString, EmptyString)
  end.

Definition digits_value (d : string) : Z :=
  fold_left (fun acc c => acc * 10 + (code c - 48)) (chars_of_string d) 0.

Definition string_of_Z (z : Z) : string :=
  NilZero.string_of_uint (N.to_uint (Z.to_N z)).

Definition zeros (n : Z) : string :=
  string_of_chars (repeat "0"%char (Z.to_nat n)).

(** *** Numbers *)

(** The Number value of the decimal [d * 10^e10], [0 <= d], with the
    sign [neg]: the nearest binary64 value, ties to even.  Beyond 10^310
    every decimal rounds to an infinity, and below 10^-330 to a zero. *)
Definition decimal_to_number (neg : bool) (d e10 : Z) : number :=
  if d =? 0 then S754_zero neg
  else if 310 <? e10 then S754_infinity neg
  else if e10 + Z.of_nat (String.length (string_of_Z d)) <? -330 then S754_zero neg
  else if 0 <=? e10 then
    binary_normalize 53 1024 ((if neg then -1 else 1) * (d * 10 ^ e10)) 0 neg
  else
    SFdiv 53 1024
      (S754_finite neg (Z.to_pos d) 0)
      (S754_finite false (Z.to_pos (10 ^ (- e10))) 0).

(** A JSON number: an optional minus sign; an integer part, either 0 or
    digits that do not start with 0; an optional fraction, a point and
    one digit or more; an optional exponent, e or E, an optional sign and
    one digit or more. *)
Definition parse_number (w : string) : option number :=
  let '(neg, w1) :=
    match w with
    | String "-" r => (true, r)
    | _ => (false, w)
    end in
  let '(int, w2) := take_digits w1 in
  if String.eqb int EmptyString then None
  else if (1 <? Z.of_nat (String.length int)) && String.prefix "0" int then None
  else
    '(frac, w3) ←
      match w2 with
      | String "." r =>
          let '(f, r') := take_digits r in
          if String.eqb f EmptyString then None else Some (f, r')
      | _ => Some (EmptyString, w2)
      end;
    exp ←
      match w3 with
      | EmptyString => Some 0
      | String c r =>
          if negb (Ascii.eqb c "e" || Ascii.eqb c "E") then None
          else
            let '(eneg, r1) :=
              match r with
              | String "-" r' => (true, r')
              | String "+" r' => (false, r')
              | _ => (false, r)
              end in
            let '(ed, r2) := take_digits r1 in
            if String.eqb ed EmptyString || negb (String.eqb r2 EmptyString) then None
            else Some (if eneg then - digits_value ed else digits_value ed)
      end;
    Some (decimal_to_number neg (digits_value (int +:+ frac))
            (exp - Z.of_nat (String.length frac))).

(** Number::toString, radix 10.  [x] is positive and finite here, equal
    to [num / den]. *)

(** [10^n <= num / den] *)
Definition le_pow10 (n num den : Z) : bool :=
  if 0 <=? n then 10 ^ n * den <=? num else den <=? num * 10 ^ (- n).

(** The least [n' >= n] with [num / den < 10^n']. *)
Fixpoint decimal_exponent (fuel : nat) (n num den : Z) : Z :=
  match fuel with
  | O => n
  | S f => if le_pow10 n num den then decimal_exponent f (n + 1) num den else n
  end.

(** The quotient of [num / den] by [10^p], and where [num / den] lies
    between the quotient and its successor: [Lt] nearer the quotient
    (or on it), [Eq] half way, [Gt] nearer the successor. *)
Definition scaled_floor (num den p : Z) : Z * comparison :=
  let '(a, b) := if 0 <=? p then (num, den * 10 ^ p) else (num * 10 ^ (- p), den) in
  (a / b, (2 * (a mod b)) ?= b).

Definition number_eqb (x y : number) : bool :=
  match x, y with
  | S754_finite sx mx ex, S754_finite sy my ey =>
      Bool.eqb sx sy && Pos.eqb mx my && Z.eqb ex ey
  | _, _ => false
  end.

(** The digits [s] and the exponent [n] of step 5 of Number::toString:
    the least number of digits [k] for which some [s * 10^(n-k)] with
    [k] digits has [x] as its Number value; of two such, the one nearer
    to [x], and the even one when they are as near.  Seventeen digits
    are always enough. *)
Fixpoint shortest (fuel : nat) (k : Z) (x : number) (num den n : Z) : Z * Z :=
  let '(lo, side) := scaled_floor num den (n - k) in
  let hi := lo + 1 in
  let pick (s : Z) := if s =? 10 ^ k then (1, n + 1) else (s, n) in
  match fuel with
  | O => pick lo
  | S f =>
      match number_eqb (decimal_to_number false lo (n - k)) x,
            number_eqb (decimal_to_number false hi (n - k)) x with
      | true, true =>
          match side with
          | Lt => pick lo
          | Gt => pick hi
          | Eq => if Z.even lo then pick lo else pick hi
          end
      | true, false => pick lo
      | false, true => pick hi
      | false, false => shortest f (k + 1) x num den n
      end
  end.

(** The rational [num / den] that a positive finite [x] denotes. *)
Definition fraction (m : positive) (e : Z) : Z * Z :=
  if 0 <=? e then (Zpos m * 2 ^ e, 1) else (Zpos m, 2 ^ (- e)).

(** Steps 6 to 10 of Number::toString, from the digits of [s] and [n]. *)
Definition format_digits (digits : string) (n : Z) : string :=
  let k := Z.of_nat (String.length digits) in
  if (k <=? n) && (n <=? 21) then digits +:+ zeros (n - k)
  else if (0 <? n) && (n <=? 21) then
    String.substring 0 (Z.to_nat n) digits +:+ "." +:+
    String.substring (Z.to_nat n) (Z.to_nat (k - n)) digits
  else if (-6 <? n) && (n <=? 0) then "0." +:+ zeros (- n) +:+ digits
  else
    let e := n - 1 in
    let exponent := (if e <? 0 then "e-" else "e+") +:+ string_of_Z (Z.abs e) in
    if k =? 1 then digits +:+ exponent
    else String.substring 0 1 digits +:+ "." +:+
         String.substring 1 (Z.to_nat (k - 1)) digits +:+ exponent.

Definition Number_toString (x : number) : string :=
  match x with
  | S754_nan => "NaN"
  | S754_zero _ => "0"
  | S754_infinity s => if s then "-Infinity" else "Infinity"
  | S754_finite s m e =>
      match binary_round 53 1024 false m e with
      | S754_finite _ m' e' =>
          let '(num, den) := fraction m' e' in
          let n := decimal_exponent 640 (-324) num den in
          let '(digits, n') := shortest 17 1 (S754_finite false m' e') num den n in
          (if s then "-" else EmptyString) +:+ format_digits (string_of_Z digits) n'
      | S754_infinity _ => if s then "-Infinity" else "Infinity"
      | _ => "0"
      end
  end.

(** *** Strings *)

(** The UTF-8 encoding of a code point (of a code unit, for a lone
    surrogate), last byte first. *)
Definition utf8_rev (cp : Z) : list ascii :=
  if cp <? 128 then [chr cp]
  else if cp <? 2048 then
    [chr (128 + cp mod 64); chr (192 + cp / 64)]
  else if cp <? 65536 then
    [chr (128 + cp mod 64); chr (128 + (cp / 64) mod 64); chr (224 + cp / 4096)]
  else
    [chr (128 + cp mod 64); chr (128 + (cp / 64) mod 64);
     chr (128 + (cp / 4096) mod 64); chr (240 + cp / 262144)].

(** The code unit of a surrogate from the three bytes that hold it. *)
Definition surrogate (b1 b2 b3 : ascii) : option Z :=
  if (code b1 =? 237) && (160 <=? code b2) && (code b2 <=? 191)
     && (128 <=? code b3) && (code b3 <=? 191)
  then Some (53248 + (code b2 mod 64) * 64 + code b3 mod 64)
  else None.

(** Appends the code unit [u] of a \u escape to the string read so far
    ([acc], last byte first): a low surrogate that follows a high one
    makes one code point with it. *)
Definition push_code_unit (u : Z) (acc : list ascii) : list ascii :=
  let alone := (utf8_rev u ++ acc)%list in
  if (56320 <=? u) && (u <=? 57343) then
    match acc with
    | b3 :: b2 :: b1 :: rest =>
        match surrogate b1 b2 b3 with
        | Some hi =>
            if hi <? 56320 then
              (utf8_rev (65536 + (hi - 55296) * 1024 + (u - 56320)) ++ rest)%list
            else alone
        | None => alone
        end
    | _ => alone
    end
  else alone.

Definition hex_value (c : ascii) : option Z :=
  let n := code c in
  if (48 <=? n) && (n <=? 57) then Some (n - 48)
  else if (65 <=? n) && (n <=? 70) then Some (n - 55)
  else if (97 <=? n) && (n <=? 102) then Some (n - 87)
  else None.

Definition hex_digit (n : Z) : ascii :=
  if n <? 10 then chr (48 + n) else chr (87 + n).

(** QuoteJSONString *)
Fixpoint quote_chars (l : list ascii) : string :=
  match l with
  | [] => EmptyString
  | c :: r =>
      let n := code c in
      let escape (e : string) := String backslash (e +:+ quote_chars r) in
      if n =? 8 then escape "b"
      else if n =? 9 then escape "t"
      else if n =? 10 then escape "n"
      else if n =? 12 then escape "f"
      else if n =? 13 then escape "r"
      else if n =? 34 then String backslash (String dquote (quote_chars r))
      else if n =? 92 then String backslash (String backslash (quote_chars r))
      else if n <? 32 then
        escape (string_of_chars ["u"; "0"; "0"; hex_digit (n / 16); hex_digit (n mod 16)]%char)
      else
        match r with
        | b2 :: b3 :: r' =>
            match surrogate c b2 b3 with
            | Some u =>
                String backslash
                  (string_of_chars
                     ["u"%char; hex_digit (u / 4096); hex_digit ((u / 256) mod 16);
                      hex_digit ((u / 16) mod 16); hex_digit (u mod 16)]
                   +:+ quote_chars r')
            | None => String c (quote_chars r)
            end
        | _ => String c (quote_chars r)
        end
  end.

Definition QuoteJSONString (s : string) : string :=
  String dquote (quote_chars (chars_of_string s) +:+ String dquote EmptyString).

(** *** JSON.parse *)

Inductive token : Type :=
  | LBrace | RBrace | LBracket | RBracket | Colon | Comma
  | Word (w : string)     (* a literal name or a number *)
  | Str (s : string).

(** Where the scanner is; what it has read of a word or a string is kept
    last character first. *)
Inductive mode : Type :=
  | Ready
  | InWord (w : list ascii)
  | InString (s : list ascii)
  | InEscape (s : list ascii)
  | InHex (s : list ascii) (read : nat) (u : Z).

Definition is_space (c : ascii) : bool :=
  let n := code c in (n =? 9) || (n =? 10) || (n =? 13) || (n =? 32).

(** The characters of the literal names and of numbers. *)
Definition is_word_char (c : ascii) : bool :=
  let n := code c in
  ((48 <=? n) && (n <=? 57)) || ((97 <=? n) && (n <=? 122))
  || ((65 <=? n) && (n <=? 90)) || (n =? 43) || (n =? 45) || (n =? 46).

Definition scan_ready (c : ascii) : option (mode * list token) :=
  let n := code c in
  if is_space c then Some (Ready, [])
  else if n =? 123 then Some (Ready, [LBrace])
  else if n =? 125 then Some (Ready, [RBrace])
  else if n =? 91 then Some (Ready, [LBracket])
  else if n =? 93 then Some (Ready, [RBracket])
  else if n =? 58 then Some (Ready, [Colon])
  else if n =? 44 then Some (Ready, [Comma])
  else if n =? 34 then Some (InString [], [])
  else if is_word_char c then Some (InWord [c], [])
  else None.

Definition scan (m : mode) (c : ascii) : option (mode * list token) :=
  match m with
  | Ready => scan_ready c
  | InWord w =>
      if is_word_char c then Some (InWord (c :: w), [])
      else
        '(m', ts) ← scan_ready c;
        Some (m', Word (string_of_chars (rev w)) :: ts)
  | InString s =>
      let n := code c in
      if n =? 34 then Some (Ready, [Str (string_of_chars (rev s))])
      else if n =? 92 then Some (InEscape s, [])
      else if n <? 32 then None
      else Some (InString (c :: s), [])
  | InEscape s =>
      let n := code c in
      if (n =? 34) || (n =? 92) || (n =? 47) then Some (InString (c :: s), [])
      else if n =? 98 then Some (InString (chr 8 :: s), [])
      else if n =? 102 then Some (InString (chr 12 :: s), [])
      else if n =? 110 then Some (InString (chr 10 :: s), [])
      else if n =? 114 then Some (InString (chr 13 :: s), [])
      else if n =? 116 then Some (InString (chr 9 :: s), [])
      else if n =? 117 then Some (InHex s 0 0, [])
      else None
  | InHex s read u =>
      d ← hex_value c;
      let u' := u * 16 + d in
      match read with
      | 3%nat => Some (InString (push_code_unit u' s), [])
      | _ => Some (InHex s (S read) u', [])
      end
  end.

Fixpoint tokens (m : mode) (text : string) : option (list token) :=
  match text with
  | EmptyString =>
      match m with
      | Ready => Some []
      | InWord w => Some [Word (string_of_chars (rev w))]
      | _ => None
      end
  | String c rest =>
      '(m', ts) ← scan m c;
      ts' ← tokens m' rest;
      Some (ts ++ ts')%list
  end.

Definition word_value (w : string) : option value :=
  if String.eqb w "null" then Some VNull
  else if String.eqb w "true" then Some (VBool true)
  else if String.eqb w "false" then Some (VBool false)
  else VNum <$> parse_number w.

(** A property name that is an array index: a canonical numeric string
    below 2^32 - 1. *)
Definition array_index (k : string) : option Z :=
  let '(d, r) := take_digits k in
  if String.eqb d EmptyString || negb (String.eqb r EmptyString) then None
  else if (1 <? Z.of_nat (String.length d)) && String.prefix "0" d then None
  else if (10 <? Z.of_nat (String.length d)) || (4294967294 <? digits_value d) then None
  else Some (digits_value d).

Fixpoint replace_property (props : list (string * value)) (k : string) (v : value)
  : list (string * value) :=
  match props with
  | [] => []
  | (k', v') :: rest =>
      if String.eqb k' k then (k, v) :: rest
      else (k', v') :: replace_property rest k v
  end.

(** A new property takes its place in the order in which the keys of an
    object are listed: array indices first, ascending, then the other
    names in the order of their creation. *)
Fixpoint add_property (props : list (string * value)) (k : string) (v : value)
  : list (string * value) :=
  match props with
  | [] => [(k, v)]
  | (k', v') :: rest =>
      match array_index k, array_index k' with
      | Some i, Some i' =>
          if i <? i' then (k, v) :: props else (k', v') :: add_property rest k v
      | Some _, None => (k, v) :: props
      | None, _ => (k', v') :: add_property rest k v
      end
  end.

(** CreateDataProperty on the object under construction: of two members
    with one name the later gives the value. *)
Definition set_property (props : list (string * value)) (k : string) (v : value)
  : list (string * value) :=
  if has_property props k then replace_property props k v
  else add_property props k v.

(** An array or an object that is still open: the elements read so far,
    last first; the members read so far and the name whose value is
    awaited. *)
Inductive frame : Type :=
  | FArr (elems : list value)
  | FObj (props : list (string * value)) (key : option string).

(** What may come next. *)
Inductive expect : Type :=
  | AValue            (* a value *)
  | AValueOrClose     (* after [ *)
  | AKeyOrClose       (* after { *)
  | AKey              (* after a comma in an object *)
  | AColon            (* after a member name *)
  | ACommaOrClose     (* after an element or a member *)
  | AnEnd (v : value). (* after the whole value *)

Definition parser : Type := (list frame * expect)%type.

(** A value is complete: it is the whole text, or goes to the array or
    the object that is open. *)
Definition close_value (v : value) (stack : list frame) : option parser :=
  match stack with
  | [] => Some ([], AnEnd v)
  | FArr elems :: st => Some (FArr (v :: elems) :: st, ACommaOrClose)
  | FObj props (Some k) :: st => Some (FObj (set_property props k v) None :: st, ACommaOrClose)
  | FObj _ None :: _ => None
  end.

Definition value_allowed (e : expect) : bool :=
  match e with
  | AValue | AValueOrClose => true
  | _ => false
  end.

Definition feed (p : parser) (t : token) : option parser :=
  let '(stack, e) := p in
  match t with
  | Word w =>
      if value_allowed e then v ← word_value w; close_value v stack else None
  | Str s =>
      match e, stack with
      | (AValue | AValueOrClose), _ => close_value (VStr s) stack
      | (AKeyOrClose | AKey), FObj props None :: st => Some (FObj props (Some s) :: st, AColon)
      | _, _ => None
      end
  | LBracket => if value_allowed e then Some (FArr [] :: stack, AValueOrClose) else None
  | LBrace => if value_allowed e then Some (FObj [] None :: stack, AKeyOrClose) else None
  | RBracket =>
      match e, stack with
      | (AValueOrClose | ACommaOrClose), FArr elems :: st => close_value (VArr (rev elems)) st
      | _, _ => None
      end
  | RBrace =>
      match e, stack with
      | (AKeyOrClose | ACommaOrClose), FObj props None :: st => close_value (VObj props) st
      | _, _ => None
      end
  | Colon =>
      match e with
      | AColon => Some (stack, AValue)
      | _ => None
      end
  | Comma =>
      match e, stack with
      | ACommaOrClose, FArr _ :: _ => Some (stack, AValue)
      | ACommaOrClose, FObj _ None :: _ => Some (stack, AKey)
      | _, _ => None
      end
  end.

Fixpoint feed_all (p : parser) (ts : list token) : option parser :=
  match ts with
  | [] => Some p
  | t :: rest => p' ← feed p t; feed_all p' rest
  end.

Definition parse_text (text : string) : option value :=
  ts ← tokens Ready text;
  p ← feed_all ([], AValue) ts;
  match p with
  | ([], AnEnd v) => Some v
  | _ => None
  end.

(** *** ToString and JSON.stringify *)

Fixpoint join (sep : string) (l : list string) : string :=
  match l with
  | [] => EmptyString
  | [x] => x
  | x :: rest => x +:+ sep +:+ join sep rest
  end.

Fixpoint ToString (v : value) : string :=
  match v with
  | VUndefined => "undefined"
  | VNull => "null"
  | VBool b => if b then "true" else "false"
  | VNum n => Number_toString n
  | VStr s => s
  | VArr elems =>
      join "," (map (fun e => match e with
                              | VUndefined | VNull => EmptyString
                              | _ => ToString e
                              end) elems)
  | VObj _ => "[object Object]"
  | VError name message =>
      if String.eqb message EmptyString then name
      else if String.eqb name EmptyString then message
      else name +:+ ": " +:+ message
  end.

(** SerializeJSONProperty: [None] is undefined. *)
Fixpoint serialize (v : value) : option string :=
  match v with
  | VUndefined => None
  | VNull => Some "null"
  | VBool b => Some (if b then "true" else "false")
  | VNum n =>
      match n with
      | S754_nan | S754_infinity _ => Some "null"
      | _ => Some (Number_toString n)
      end
  | VStr s => Some (QuoteJSONString s)
  | VArr elems =>
      Some ("[" +:+ join "," (map (fun e => default "null" (serialize e)) elems) +:+ "]")
  | VObj props =>
      Some ("{" +:+
            join "," (omap (fun kv => (fun s => QuoteJSONString (fst kv) +:+ ":" +:+ s)
                                        <$> serialize (snd kv)) props)
            +:+ "}")
  | VError _ _ => Some "{}"
  end.

Definition stringify (v : value) : value :=
  match serialize v with
  | Some s => VStr s
  | None => VUndefined
  end.

Definition parse (text : value) : completion value :=
  match parse_text (ToString text) with
  | Some v => Normal v
  | None => Throw (VError "SyntaxError" "Unexpected token in JSON")
  end.

(** Node with the given Stripe client and environment.  The texts of the
    two errors the engine raises are fixed here; an engine words them in
    its own way. *)
Definition host (stripe : value -> completion value) (environment : gmap string string)
  : host := {|
  JSON_parse := parse;
  JSON_stringify := stringify;
  stripe_checkout_sessions_create := stripe;
  process_env := environment;
  nullish_read_message := fun v k =>
    "Cannot read properties of " +:+ ToString v +:+ " (reading '" +:+ k +:+ "')"
|}.

(** A session as the provider returns it, a client that creates it for
    every call and a client that rejects every call. *)
Definition session : value :=
  VObj [("id", VStr "cs_test_a1");
        ("url", VStr "https://checkout.stripe.com/c/pay/cs_test_a1")].

Definition accepting (params : value) : completion value := Normal session.

Definition rejecting (params : value) : completion value :=
  Throw (VError "StripeAuthenticationError" "Invalid API Key provided").

(** JSON texts are written here with ` for the double quote. *)
Definition json (s : string) : string :=
  string_of_chars
    (map (fun c => if Ascii.eqb c "`" then dquote else c) (chars_of_string s)).

(** The value that a JSON text written in this way denotes. *)
Definition read (s : string) : value := default VUndefined (parse_text (json s)).

End Node.

(** Node with a provider that accepts and an empty environment; with a
    provider that rejects; with a provider that accepts and a success URL
    in the environment. *)
Definition node : host := Node.host Node.accepting ∅.

Definition node_rejecting : host := Node.host Node.rejecting ∅.

Definition shop : host :=
  Node.host Node.accepting {[ "SUCCESS_URL" := "https://shop.test/thanks" ]}.

(** ** The paths through the try statement *)

(** The argument lists of the calls of console.error, oldest first. *)
Fixpoint logged (t : list effect) : list (list value) :=
  match t with
  | [] => []
  | Create _ :: rest => logged rest
  | ConsoleError args :: rest => args :: logged rest
  end.

(** The ways in which the try statement of lines 27-59 ends on an event,
    each with its completion and the effects performed: JSON.parse throws;
    the read of [items] throws; [items] is not an array; the callback of
    [items.map] throws; the call of the provider throws or is rejected;
    the read of [session.url] throws; the session URL is returned. *)
Inductive try_path (h : host) (ev : event) : completion response -> list effect -> Prop :=
  | path_parse_throws (e : value) :
      JSON_parse h (js_or (body ev) (VStr "{}")) = Throw e ->
      try_path h ev (Throw e) []
  | path_items_throws (parsed e : value) :
      JSON_parse h (js_or (body ev) (VStr "{}")) = Normal parsed ->
      get h parsed "items" = Throw e ->
      try_path h ev (Throw e) []
  | path_not_array (parsed items : value) :
      JSON_parse h (js_or (body ev) (VStr "{}")) = Normal parsed ->
      get h parsed "items" = Normal items ->
      Array_isArray items = false ->
      try_path h ev
        (Normal {| statusCode := 400;
                   response_body := JSON_stringify h
                     (VObj [("error", VStr "Invalid payload: items must be an array")]) |})
        []
  | path_map_throws (parsed : value) (elems : list value) (e : value) :
      JSON_parse h (js_or (body ev) (VStr "{}")) = Normal parsed ->
      get h parsed "items" = Normal (VArr elems) ->
      Array_map (line_item h) elems = Throw e ->
      try_path h ev (Throw e) []
  | path_create_throws (parsed : value) (elems line_items : list value) (e : value) :
      JSON_parse h (js_or (body ev) (VStr "{}")) = Normal parsed ->
      get h parsed "items" = Normal (VArr elems) ->
      Array_map (line_item h) elems = Normal line_items ->
      stripe_checkout_sessions_create h (session_params h line_items) = Throw e ->
      try_path h ev (Throw e) [Create (session_params h line_items)]
  | path_url_throws (parsed : value) (elems line_items : list value) (session e : value) :
      JSON_parse h (js_or (body ev) (VStr "{}")) = Normal parsed ->
      get h parsed "items" = Normal (VArr elems) ->
      Array_map (line_item h) elems = Normal line_items ->
      stripe_checkout_sessions_create h (session_params h line_items) = Normal session ->
      get h session "url" = Throw e ->
      try_path h ev (Throw e) [Create (session_params h line_items)]
  | path_success (parsed : value) (elems line_items : list value) (session url : value) :
      JSON_parse h (js_or (body ev) (VStr "{}")) = Normal parsed ->
      get h parsed "items" = Normal (VArr elems) ->
      Array_map (line_item h) elems = Normal line_items ->
      stripe_checkout_sessions_create h (session_params h line_items) = Normal session ->
      get h session "url" = Normal url ->
      try_path h ev
        (Normal {| statusCode := 200;
                   response_body := JSON_stringify h (VObj [("url", url)]) |})
        [Create (session_params h line_items)].

(** The line of the catch clause for a caught value. *)
Definition log_line (error : value) : effect :=
  ConsoleError [VStr "Stripe checkout error:"; error].

(** Node with a provider that rejects without a reason; with a provider
    whose promise is fulfilled with null; with a provider whose session has
    no URL. *)
Definition node_without_reason : host := Node.host (fun _ => Throw VUndefined) ∅.

Definition node_null_session : host := Node.host (fun _ => Normal VNull) ∅.

Definition node_bare_session : host :=
  Node.host (fun _ => Normal (VObj [("id", VStr "cs_test_a1")])) ∅.

(** Node with an environment in which both URLs are the empty string. *)
Definition node_empty_urls : host :=
  Node.host Node.accepting {[ "SUCCESS_URL" := EmptyString; "CANCEL_URL" := EmptyString ]}.

(** * Properties *)

(** Runs the binds of the monads, and nothing of what they bind. *)
Ltac run :=
  cbn [mbind mret M_bind M_ret completion_bind completion_ret lift perform
       try_catch negb Array_isArray elements app].

Section Steps.

Variable h : host.

(** ** The steps of the handler *)

Lemma handler_POST (ev : event) :
  httpMethod ev = VStr "POST" ->
  handler h ev = try_catch (try_block h ev) (catch_clause h).
Proof. intros E. unfold handler. rewrite E. reflexivity. Qed.

Lemma catch_clause_message (error message : value) :
  get h error "message" = Normal message ->
  catch_clause h error =
  (Normal {| statusCode := 500;
             response_body := JSON_stringify h (VObj [("error", message)]) |},
   [ConsoleError [VStr "Stripe checkout error:"; error]]).
Proof. intros E. unfold catch_clause, console_error. run. rewrite E. reflexivity. Qed.

Lemma try_block_parse_throw (ev : event) (e : value) :
  JSON_parse h (js_or (body ev) (VStr "{}")) = Throw e ->
  try_block h ev = (Throw e, []).
Proof. intros E. unfold try_block. rewrite E. reflexivity. Qed.

Lemma try_block_items_throw (ev : event) (parsed e : value) :
  JSON_parse h (js_or (body ev) (VStr "{}")) = Normal parsed ->
  get h parsed "items" = Throw e ->
  try_block h ev = (Throw e, []).
Proof. intros E1 E2. unfold try_block. rewrite E1. run. rewrite E2. reflexivity. Qed.

Lemma try_block_not_array (ev : event) (parsed items : value) :
  JSON_parse h (js_or (body ev) (VStr "{}")) = Normal parsed ->
  get h parsed "items" = Normal items ->
  Array_isArray items = false ->
  try_block h ev =
  (Normal {| statusCode := 400;
             response_body := JSON_stringify h
               (VObj [("error", VStr "Invalid payload: items must be an array")]) |},
   []).
Proof.
  intros E1 E2 E3. unfold try_block. rewrite E1. run. rewrite E2. run.
  rewrite E3. reflexivity.
Qed.

Lemma try_block_map_throw (ev : event) (parsed : value) (elems : list value) (e : value) :
  JSON_parse h (js_or (body ev) (VStr "{}")) = Normal parsed ->
  get h parsed "items" = Normal (VArr elems) ->
  Array_map (line_item h) elems = Throw e ->
  try_block h ev = (Throw e, []).
Proof.
  intros E1 E2 E3. unfold try_block. rewrite E1. run. rewrite E2. run.
  rewrite E3. reflexivity.
Qed.

(** Past the transform, the outcome is that of the provider. *)
Lemma try_block_create (ev : event) (parsed : value) (elems line_items : list value) :
  JSON_parse h (js_or (body ev) (VStr "{}")) = Normal parsed ->
  get h parsed "items" = Normal (VArr elems) ->
  Array_map (line_item h) elems = Normal line_items ->
  try_block h ev =
  (match stripe_checkout_sessions_create h (session_params h line_items) with
   | Normal session =>
       match get h session "url" with
       | Normal url =>
           Normal {| statusCode := 200;
                     response_body := JSON_stringify h (VObj [("url", url)]) |}
       | Throw e => Throw e
       end
   | Throw e => Throw e
   end,
   [Create (session_params h line_items)]).
Proof.
  intros E1 E2 E3. unfold try_block. rewrite E1. run. rewrite E2. run.
  rewrite E3. unfold create.
  destruct (stripe_checkout_sessions_create h (session_params h line_items)) as [session|e];
    run; [|reflexivity].
  destruct (get h session "url"); reflexivity.
Qed.

End Steps.

Section Transform.

Variable h : host.

(** ** Reading properties *)

Lemma get_nullish (v : value) (k : string) :
  nullish v = true ->
  get h v k = Throw (VError "TypeError" (nullish_read_message h v k)).
Proof. destruct v; simpl; intros E; try discriminate E; reflexivity. Qed.

Lemma get_not_nullish (v : value) (k : string) :
  nullish v = false -> exists x, get h v k = Normal x.
Proof. destruct v; simpl; intros E; try discriminate E; eauto. Qed.

Lemma own_property_absent (props : list (string * value)) (k : string) :
  has_property props k = false -> own_property props k = VUndefined.
Proof.
  induction props as [|[k' v] rest IH]; simpl; [reflexivity|].
  destruct (String.eqb k' k); simpl; [discriminate|exact IH].
Qed.

(** ** The callback *)

Lemma line_item_Normal (item li : value) :
  line_item h item = Normal li ->
  exists name unit_amount quantity,
    get h item "name" = Normal name /\
    get h item "price" = Normal unit_amount /\
    get h item "quantity" = Normal quantity /\
    li = made name unit_amount quantity.
Proof.
  unfold line_item. intros E.
  destruct (get h item "name") as [name|] eqn:E1; run; [|discriminate E].
  destruct (get h item "price") as [unit_amount|] eqn:E2; run; [|discriminate E].
  destruct (get h item "quantity") as [quantity|] eqn:E3; run; [|discriminate E].
  injection E as <-. exists name, unit_amount, quantity. auto.
Qed.

Lemma line_item_nullish (item : value) :
  nullish item = true ->
  line_item h item = Throw (VError "TypeError" (nullish_read_message h item "name")).
Proof. intros E. unfold line_item. rewrite (get_nullish item "name" E). reflexivity. Qed.

Lemma line_item_not_nullish (item : value) :
  nullish item = false -> exists li, line_item h item = Normal li.
Proof.
  intros E. unfold line_item.
  destruct (get_not_nullish item "name" E) as [x1 ->].
  destruct (get_not_nullish item "price" E) as [x2 ->].
  destruct (get_not_nullish item "quantity" E) as [x3 ->].
  run. eauto.
Qed.

Lemma line_item_object (props : list (string * value)) :
  line_item h (VObj props) =
  Normal (made (own_property props "name") (own_property props "price")
               (own_property props "quantity")).
Proof. reflexivity. Qed.

(** ** The loop *)

Section Loop.

Variable f : value -> completion value.

Lemma Array_map_nil : Array_map f [] = Normal [].
Proof. reflexivity. Qed.

Lemma Array_map_cons (x : value) (l : list value) :
  Array_map f (x :: l) =
  match f x with
  | Normal y =>
      match Array_map f l with
      | Normal k => Normal (y :: k)
      | Throw e => Throw e
      end
  | Throw e => Throw e
  end.
Proof.
  unfold Array_map. simpl. destruct (f x); run; [|reflexivity].
  destruct (mapM f l); reflexivity.
Qed.

Lemma Array_map_Normal (elems out : list value) :
  Array_map f elems = Normal out ->
  Forall2 (fun x y => f x = Normal y) elems out.
Proof.
  revert out. induction elems as [|x l IH]; intros out.
  - rewrite Array_map_nil. intros [= <-]. constructor.
  - rewrite Array_map_cons. destruct (f x) as [y|] eqn:Ex; [|discriminate].
    destruct (Array_map f l) as [k|]; [|discriminate].
    intros [= <-]. constructor; auto.
Qed.

Lemma Array_map_total (elems : list value) :
  Forall (fun x => exists y, f x = Normal y) elems ->
  exists out, Array_map f elems = Normal out.
Proof.
  induction 1 as [|x l [y Ey] _ [k Ek]].
  - exists []. reflexivity.
  - exists (y :: k). rewrite Array_map_cons, Ey, Ek. reflexivity.
Qed.

Lemma Array_map_pointwise (g : value -> value) (elems : list value) :
  Forall (fun x => f x = Normal (g x)) elems ->
  Array_map f elems = Normal (map g elems).
Proof.
  induction 1 as [|x l Ex _ IH]; [reflexivity|].
  rewrite Array_map_cons, Ex, IH. reflexivity.
Qed.

(** The loop ends at the first element on which the callback throws. *)
Lemma Array_map_Throw (before after : list value) (x e : value) :
  Forall (fun x => exists y, f x = Normal y) before ->
  f x = Throw e ->
  Array_map f (before ++ x :: after) = Throw e.
Proof.
  intros Hb Ex. induction Hb as [|b l [y Ey] _ IH]; cbn [app].
  - rewrite Array_map_cons, Ex. reflexivity.
  - rewrite Array_map_cons, Ey, IH. reflexivity.
Qed.

End Loop.

(** The first element that is null or undefined. *)
Lemma first_nullish (elems : list value) :
  Exists (fun v => nullish v = true) elems ->
  exists before v after,
    elems = (before ++ v :: after)%list /\
    Forall (fun x => nullish x = false) before /\
    nullish v = true.
Proof.
  induction elems as [|x l IH]; intros E.
  - inversion E.
  - destruct (nullish x) eqn:Ex.
    + exists [], x, l. auto.
    + inversion E as [? ? Hx|? ? Hl]; subst; [congruence|].
      destruct (IH Hl) as (before & v & after & -> & Hb & Hv).
      exists (x :: before), v, after. auto.
Qed.

Lemma transform_throws (elems : list value) :
  Exists (fun v => nullish v = true) elems ->
  exists v, In v elems /\ nullish v = true /\
    Array_map (line_item h) elems =
    Throw (VError "TypeError" (nullish_read_message h v "name")).
Proof.
  intros E. destruct (first_nullish elems E) as (before & v & after & -> & Hb & Hv).
  exists v. split; [apply in_or_app; right; left; reflexivity|]. split; [exact Hv|].
  apply Array_map_Throw; [|apply line_item_nullish; exact Hv].
  eapply Forall_impl; [exact Hb|]. intros x. apply line_item_not_nullish.
Qed.

Lemma transform_completes (elems : list value) :
  Forall (fun v => nullish v = false) elems ->
  exists line_items, Array_map (line_item h) elems = Normal line_items.
Proof.
  intros F. apply Array_map_total.
  eapply Forall_impl; [exact F|]. intros x. apply line_item_not_nullish.
Qed.

(** What the transform throws is the TypeError of a read of [name]. *)
Lemma transform_Throw_inv (elems : list value) (e : value) :
  Array_map (line_item h) elems = Throw e ->
  exists v, In v elems /\ nullish v = true /\
    e = VError "TypeError" (nullish_read_message h v "name").
Proof.
  induction elems as [|x l IH].
  - rewrite Array_map_nil. discriminate.
  - rewrite Array_map_cons. destruct (nullish x) eqn:Ex.
    + rewrite (line_item_nullish x Ex). intros [= <-].
      exists x. split; [left; reflexivity|]. auto.
    + destruct (line_item_not_nullish x Ex) as [li ->].
      destruct (Array_map (line_item h) l) as [k|e']; [discriminate|].
      intros [= <-]. destruct (IH eq_refl) as (v & Hin & Hv & ->).
      exists v. split; [right; exact Hin|]. auto.
Qed.

End Transform.

(** ** The effects of the handler *)

(** The catch clause answers 500 after one call of console.error, unless
    reading the message of what was caught throws in its turn. *)
Lemma catch_clause_outcome (h : host) (error : value) :
  (exists message,
     catch_clause h error =
     (Normal {| statusCode := 500;
                response_body := JSON_stringify h (VObj [("error", message)]) |},
      [ConsoleError [VStr "Stripe checkout error:"; error]]))
  \/ (exists e,
        catch_clause h error =
        (Throw e, [ConsoleError [VStr "Stripe checkout error:"; error]])).
Proof.
  unfold catch_clause, console_error. run.
  destruct (get h error "message") as [message|e]; [left|right]; eauto.
Qed.

(** Effects of the catch clause: one line logged, nothing sent. *)
Lemma catch_clause_effects (h : host) (error : value) :
  snd (catch_clause h error) = [ConsoleError [VStr "Stripe checkout error:"; error]].
Proof. destruct (catch_clause_outcome h error) as [[m E]|[e E]]; rewrite E; reflexivity. Qed.

Lemma try_catch_effects {A} (m : M A) (k : value -> M A) :
  snd (try_catch m k) =
  match fst m with
  | Normal _ => snd m
  | Throw e => (snd m ++ snd (k e))%list
  end.
Proof.
  destruct m as [[a|e] t]; simpl; [reflexivity|]. destruct (k e); reflexivity.
Qed.

Lemma creates_app (t t' : list effect) :
  creates (t ++ t') = (creates t ++ creates t')%list.
Proof.
  induction t as [|[params|args] t IH]; simpl; [reflexivity| |exact IH].
  rewrite IH. reflexivity.
Qed.

(** What a POST request whose items are the array [elems] sends to the
    provider: one call when the transform completes, no call when it
    throws. *)
Lemma handler_creates (h : host) (ev : event) (parsed : value) (elems : list value) :
  httpMethod ev = VStr "POST" ->
  JSON_parse h (js_or (body ev) (VStr "{}")) = Normal parsed ->
  get h parsed "items" = Normal (VArr elems) ->
  creates (snd (handler h ev)) =
  match Array_map (line_item h) elems with
  | Normal line_items => [session_params h line_items]
  | Throw _ => []
  end.
Proof.
  intros HP E1 E2. rewrite (handler_POST h ev HP), try_catch_effects.
  destruct (Array_map (line_item h) elems) as [line_items|e] eqn:E3.
  - rewrite (try_block_create h ev parsed elems line_items E1 E2 E3). cbn [fst snd].
    destruct (stripe_checkout_sessions_create h (session_params h line_items)) as [session|e].
    + destruct (get h session "url") as [url|e]; [reflexivity|].
      rewrite creates_app, catch_clause_effects. reflexivity.
    + rewrite creates_app, catch_clause_effects. reflexivity.
  - rewrite (try_block_map_throw h ev parsed elems e E1 E2 E3). cbn [fst snd].
    rewrite catch_clause_effects. reflexivity.
Qed.

(** ** The built-ins at work *)

(** Number texts and the texts of their Number values. *)
Example Number_toString_of_parse_number :
  map (fun w => Node.Number_toString <$> Node.parse_number w)
    ["499"; "-4.50"; "0.1"; "1e21"; "1E-7"; "0.000001"; "123456789012345680000";
     "9007199254740993"; "5e-324"; "1.7976931348623157e308"; "2e308"; "-0";
     "0.30000000000000004"; "12345678901234567890"; "01"; "1."; ".5"; "+1"; "1e"]
  = [Some "499"; Some "-4.5"; Some "0.1"; Some "1e+21"; Some "1e-7"; Some "0.000001";
     Some "123456789012345680000"; Some "9007199254740992"; Some "5e-324";
     Some "1.7976931348623157e+308"; Some "Infinity"; Some "0";
     Some "0.30000000000000004"; Some "12345678901234567000"; None; None; None; None; None].
Proof. vm_compute. reflexivity. Qed.

(** A text read and written again: the later of two members of one name
    gives the value, array indices come first among the keys, escapes are
    read and written. *)
Example stringify_of_parse :
  Node.stringify
    (Node.read " { `b` : [1, 2.50, -0, true, null, {}], `7`: `xA\n\\`, `b`: [[]], `a`: 1e3 } ")
  = VStr (Node.json "{`7`:`xA\n\\`,`b`:[[]],`a`:1000}").
Proof. vm_compute. reflexivity. Qed.

(** Texts that are not JSON. *)
Example parse_text_rejects :
  omap (fun text => Node.parse_text (Node.json text))
    [""; " "; "{"; "[1,]"; "{`a`:1,}"; "{`a` 1}"; "[1 2]"; "{a:1}"; "'a'"; "nul";
     "[1]]"; "`a"; "`\x`"; "`\u00g0`"; "1 2"; "undefined"; "NaN"]
  = [].
Proof. vm_compute. reflexivity. Qed.

(** ** A request from end to end *)

(** Two items, the second with a quantity; no URL in the environment. *)
Example handler_end_to_end :
  handler node
    (POST (Node.json "{`items`:[{`name`:`Widget`,`price`:499},{`name`:`Gadget`,`price`:1250,`quantity`:3}]}"))
  = (Normal {| statusCode := 200;
               response_body :=
                 VStr (Node.json "{`url`:`https://checkout.stripe.com/c/pay/cs_test_a1`}") |},
     [Create (VObj [
        ("payment_method_types", VArr [VStr "card"]);
        ("line_items", VArr [
           VObj [("price_data", VObj [("currency", VStr "usd");
                                      ("product_data", VObj [("name", VStr "Widget")]);
                                      ("unit_amount", VNum (number_of_Z 499))]);
                 ("quantity", VNum (number_of_Z 1))];
           VObj [("price_data", VObj [("currency", VStr "usd");
                                      ("product_data", VObj [("name", VStr "Gadget")]);
                                      ("unit_amount", VNum (number_of_Z 1250))]);
                 ("quantity", VNum (number_of_Z 3))]]);
        ("mode", VStr "payment");
        ("success_url", VStr "https://example.com/success");
        ("cancel_url", VStr "https://example.com/cancel")])]).
Proof. vm_compute. reflexivity. Qed.

(** ** The line items *)

(** C1.  The quantity of the line item made from an item is the item's
    quantity when that is truthy, and 1 otherwise.  In particular an item
    whose quantity is 0 (of either sign) gets the quantity 1, and so does
    an item that has no quantity. *)
Theorem C1_quantity_or_one (h : host) :
  (forall item li : value,
     line_item h item = Normal li ->
     exists quantity,
       get h item "quantity" = Normal quantity /\
       get h li "quantity" =
         Normal (if ToBoolean quantity then quantity else VNum (number_of_Z 1)))
  /\ (forall (props : list (string * value)) (s : bool),
        own_property props "quantity" = VNum (S754_zero s) ->
        exists li,
          line_item h (VObj props) = Normal li /\
          get h li "quantity" = Normal (VNum (number_of_Z 1)))
  /\ (forall props : list (string * value),
        has_property props "quantity" = false ->
        exists li,
          line_item h (VObj props) = Normal li /\
          get h li "quantity" = Normal (VNum (number_of_Z 1))).
Proof.
  split; [|split].
  - intros item li E.
    destruct (line_item_Normal h item li E) as (name & price & quantity & _ & _ & Eq & ->).
    exists quantity. split; [exact Eq|]. reflexivity.
  - intros props s E. eexists. split; [apply line_item_object|].
    rewrite E. reflexivity.
  - intros props E. eexists. split; [apply line_item_object|].
    rewrite (own_property_absent props "quantity" E). reflexivity.
Qed.

(** The item {name: Widget, price: 499, quantity: 0}, read from its JSON
    text, gets the quantity 1. *)
Lemma C1_quantity_or_one_witness :
  exists li,
    line_item node (Node.read "{`name`:`Widget`,`price`:499,`quantity`:0}")
      = Normal li /\
    get node li "quantity" = Normal (VNum (number_of_Z 1)).
Proof.
  apply (proj1 (proj2 (C1_quantity_or_one node))
           [("name", VStr "Widget"); ("price", VNum (number_of_Z 499));
            ("quantity", VNum (S754_zero false))] false).
  reflexivity.
Defined.

(** C6.  The line item made from an item has the currency usd, the item's
    name as its product name and the item's price as its unit amount,
    whatever these two are: every item other than null and undefined gets
    a line item, and a name that is missing is passed on as undefined. *)
Theorem C6_fields_copied (h : host) :
  (forall item li : value,
     line_item h item = Normal li ->
     exists name price,
       get h item "name" = Normal name /\
       get h item "price" = Normal price /\
       get_path h li ["price_data"; "currency"] = Normal (VStr "usd") /\
       get_path h li ["price_data"; "product_data"; "name"] = Normal name /\
       get_path h li ["price_data"; "unit_amount"] = Normal price)
  /\ (forall item : value,
        nullish item = false -> exists li, line_item h item = Normal li)
  /\ (forall props : list (string * value),
        has_property props "name" = false ->
        exists li,
          line_item h (VObj props) = Normal li /\
          get_path h li ["price_data"; "product_data"; "name"] = Normal VUndefined).
Proof.
  split; [|split].
  - intros item li E.
    destruct (line_item_Normal h item li E) as (name & price & quantity & En & Ep & _ & ->).
    exists name, price. auto.
  - apply line_item_not_nullish.
  - intros props E. eexists. split; [apply line_item_object|].
    rewrite (own_property_absent props "name" E). reflexivity.
Qed.

(** A price that is negative and not an integer, and no name. *)
Lemma C6_fields_copied_witness :
  exists li,
    line_item node (Node.read "{`price`:-4.5}") = Normal li /\
    get_path node li ["price_data"; "product_data"; "name"]
      = Normal VUndefined.
Proof.
  apply (proj2 (proj2 (C6_fields_copied node))
           [("price", VNum (S754_finite true 5066549580791808 (-50)))]).
  reflexivity.
Defined.

(** ** The responses *)

(** C5.  A request whose method is not POST is answered 405 with the text
    Method Not Allowed, which is not a JSON text, whatever its body and
    whatever the host: nothing is parsed, nothing is sent to the provider
    and nothing is logged. *)
Theorem C5_method_not_allowed (h : host) (ev : event) :
  httpMethod ev <> VStr "POST" ->
  handler h ev =
    (Normal {| statusCode := 405; response_body := VStr "Method Not Allowed" |}, [])
  /\ Node.parse_text "Method Not Allowed" = None.
Proof.
  intros E. split; [|reflexivity].
  unfold handler.
  destruct (httpMethod ev) as [| | | |s| | |]; try reflexivity.
  simpl. destruct (String.eqb_spec s "POST") as [->|]; [|reflexivity].
  contradiction E; reflexivity.
Qed.

Lemma C5_method_not_allowed_witness :
  handler node
    {| httpMethod := VStr "GET"; body := VStr (Node.json "{`items`:[]}") |} =
    (Normal {| statusCode := 405; response_body := VStr "Method Not Allowed" |}, [])
  /\ Node.parse_text "Method Not Allowed" = None.
Proof.
  apply (C5_method_not_allowed node
           {| httpMethod := VStr "GET"; body := VStr (Node.json "{`items`:[]}") |}).
  discriminate.
Defined.

(** C2.  On a POST request a value thrown in the try statement, with the
    effects [t] performed before it, is logged once and answered 500 with
    the JSON text of {error: message}, where [message] is the message of
    what was thrown; so it is when JSON.parse throws (a malformed body gets
    500, not 400), when the transform throws, and when the call of the
    provider throws or is rejected. *)
Theorem C2_failure_is_500 (h : host) (ev : event) (error message : value) :
  httpMethod ev = VStr "POST" ->
  get h error "message" = Normal message ->
  let failure (t : list effect) : M response :=
    (Normal {| statusCode := 500;
               response_body := JSON_stringify h (VObj [("error", message)]) |},
     (t ++ [ConsoleError [VStr "Stripe checkout error:"; error]])%list) in
  (forall t, try_block h ev = (Throw error, t) -> handler h ev = failure t)
  /\ (JSON_parse h (js_or (body ev) (VStr "{}")) = Throw error ->
      handler h ev = failure [])
  /\ (forall parsed elems,
        JSON_parse h (js_or (body ev) (VStr "{}")) = Normal parsed ->
        get h parsed "items" = Normal (VArr elems) ->
        Array_map (line_item h) elems = Throw error ->
        handler h ev = failure [])
  /\ (forall parsed elems line_items,
        JSON_parse h (js_or (body ev) (VStr "{}")) = Normal parsed ->
        get h parsed "items" = Normal (VArr elems) ->
        Array_map (line_item h) elems = Normal line_items ->
        stripe_checkout_sessions_create h (session_params h line_items) = Throw error ->
        handler h ev = failure [Create (session_params h line_items)]).
Proof.
  intros HP HM failure.
  assert (G : forall t, try_block h ev = (Throw error, t) -> handler h ev = failure t).
  { intros t E. rewrite (handler_POST h ev HP), E. cbn [try_catch].
    rewrite (catch_clause_message h error message HM). reflexivity. }
  split; [exact G|]. split; [|split].
  - intros E. apply G, try_block_parse_throw, E.
  - intros parsed elems E1 E2 E3. apply G. eapply try_block_map_throw; eassumption.
  - intros parsed elems line_items E1 E2 E3 E4. apply G.
    rewrite (try_block_create h ev parsed elems line_items E1 E2 E3), E4. reflexivity.
Qed.

(** A body that is not JSON; and a valid body, with a provider that
    rejects the call. *)
Lemma C2_failure_is_500_witness :
  handler node (POST "{items: oops") =
    (Normal {| statusCode := 500;
               response_body := VStr (Node.json "{`error`:`Unexpected token in JSON`}") |},
     [ConsoleError [VStr "Stripe checkout error:";
                    VError "SyntaxError" "Unexpected token in JSON"]])
  /\ handler node_rejecting (POST (Node.json "{`items`:[]}")) =
    (Normal {| statusCode := 500;
               response_body := VStr (Node.json "{`error`:`Invalid API Key provided`}") |},
     [Create (session_params node_rejecting []);
      ConsoleError [VStr "Stripe checkout error:";
                    VError "StripeAuthenticationError" "Invalid API Key provided"]]).
Proof.
  split.
  - apply (proj1 (proj2 (C2_failure_is_500 node (POST "{items: oops")
                           (VError "SyntaxError" "Unexpected token in JSON")
                           (VStr "Unexpected token in JSON") eq_refl eq_refl))).
    vm_compute. reflexivity.
  - apply (proj2 (proj2 (proj2
             (C2_failure_is_500 node_rejecting (POST (Node.json "{`items`:[]}"))
                (VError "StripeAuthenticationError" "Invalid API Key provided")
                (VStr "Invalid API Key provided") eq_refl eq_refl)))
             (VObj [("items", VArr [])]) [] [] eq_refl eq_refl eq_refl eq_refl).
Defined.

(** C9.  On a POST request whose body is the text null, which JSON.parse
    reads as the value null, taking [items] from null throws a TypeError:
    the answer is the 500 of the catch clause, with that error logged. *)
Theorem C9_null_body_is_500 (h : host) (ev : event) :
  httpMethod ev = VStr "POST" ->
  body ev = VStr "null" ->
  JSON_parse h (VStr "null") = Normal VNull ->
  handler h ev =
    (Normal {| statusCode := 500;
               response_body := JSON_stringify h
                 (VObj [("error", VStr (nullish_read_message h VNull "items"))]) |},
     [ConsoleError [VStr "Stripe checkout error:";
                    VError "TypeError" (nullish_read_message h VNull "items")]]).
Proof.
  intros HP HB E.
  rewrite (handler_POST h ev HP).
  rewrite (try_block_items_throw h ev VNull
             (VError "TypeError" (nullish_read_message h VNull "items"))).
  - reflexivity.
  - rewrite HB. exact E.
  - reflexivity.
Qed.

Lemma C9_null_body_is_500_witness :
  handler node (POST "null") =
    (Normal {| statusCode := 500;
               response_body :=
                 VStr (Node.json "{`error`:`Cannot read properties of null (reading 'items')`}") |},
     [ConsoleError [VStr "Stripe checkout error:";
                    VError "TypeError" "Cannot read properties of null (reading 'items')"]]).
Proof.
  apply (C9_null_body_is_500 node (POST "null")
           eq_refl eq_refl).
  vm_compute. reflexivity.
Defined.

(** C3.  On a POST request whose body JSON.parse reads as [parsed], other
    than null and undefined: when [parsed.items] is not an array (when it
    is missing, in particular) the answer is 400 with the JSON text of the
    fixed error, and nothing is sent to the provider nor logged; when it
    is the empty array the provider is called, with no line items, and the
    answer is not 400. *)
Theorem C3_items_must_be_array (h : host) (ev : event) (parsed : value) :
  httpMethod ev = VStr "POST" ->
  JSON_parse h (js_or (body ev) (VStr "{}")) = Normal parsed ->
  let invalid : M response :=
    (Normal {| statusCode := 400;
               response_body := JSON_stringify h
                 (VObj [("error", VStr "Invalid payload: items must be an array")]) |},
     []) in
  (forall items,
     get h parsed "items" = Normal items ->
     Array_isArray items = false ->
     handler h ev = invalid)
  /\ (forall props,
        parsed = VObj props -> has_property props "items" = false ->
        handler h ev = invalid)
  /\ (get h parsed "items" = Normal (VArr []) ->
      creates (snd (handler h ev)) = [session_params h []] /\
      forall r, fst (handler h ev) = Normal r -> statusCode r <> 400).
Proof.
  intros HP E1 invalid.
  assert (G : forall items, get h parsed "items" = Normal items ->
                            Array_isArray items = false -> handler h ev = invalid).
  { intros items E2 E3.
    rewrite (handler_POST h ev HP), (try_block_not_array h ev parsed items E1 E2 E3).
    reflexivity. }
  split; [exact G|]. split.
  - intros props -> E. apply (G VUndefined); [|reflexivity].
    simpl. rewrite (own_property_absent props "items" E). reflexivity.
  - intros E2. rewrite (handler_POST h ev HP).
    rewrite (try_block_create h ev parsed [] [] E1 E2 (Array_map_nil _)).
    destruct (stripe_checkout_sessions_create h (session_params h [])) as [session|e].
    + destruct (get h session "url") as [url|e].
      * split; [reflexivity|]. intros r [= <-]. discriminate.
      * cbn [try_catch]. destruct (catch_clause_outcome h e) as [[m E]|[e' E]]; rewrite E.
        -- split; [reflexivity|]. intros r [= <-]. discriminate.
        -- split; [reflexivity|]. intros r [=].
    + cbn [try_catch]. destruct (catch_clause_outcome h e) as [[m E]|[e' E]]; rewrite E.
      * split; [reflexivity|]. intros r [= <-]. discriminate.
      * split; [reflexivity|]. intros r [=].
Qed.

(** The bodies {} (no items) and {items: []}. *)
Lemma C3_items_must_be_array_witness :
  handler node (POST "{}") =
    (Normal {| statusCode := 400;
               response_body :=
                 VStr (Node.json "{`error`:`Invalid payload: items must be an array`}") |},
     [])
  /\ creates (snd (handler node (POST (Node.json "{`items`:[]}"))))
     = [session_params node []].
Proof.
  split.
  - apply (proj1 (proj2 (C3_items_must_be_array node (POST "{}")
                           (VObj []) eq_refl eq_refl)) [] eq_refl eq_refl).
  - apply (proj2 (proj2 (C3_items_must_be_array node
                           (POST (Node.json "{`items`:[]}")) (VObj [("items", VArr [])])
                           eq_refl eq_refl)) eq_refl).
Defined.

(** C4.  On a POST request whose items are the array [elems], whatever is
    sent to the provider has as many line items as [elems] has elements,
    and the line item at each position is the one made from the element at
    that position; and something is sent when no element is null or
    undefined. *)
Theorem C4_line_items_follow_items
  (h : host) (ev : event) (parsed : value) (elems : list value) :
  httpMethod ev = VStr "POST" ->
  JSON_parse h (js_or (body ev) (VStr "{}")) = Normal parsed ->
  get h parsed "items" = Normal (VArr elems) ->
  (forall params,
     In params (creates (snd (handler h ev))) ->
     exists line_items,
       get h params "line_items" = Normal (VArr line_items) /\
       length line_items = length elems /\
       forall (i : nat) (item : value),
         elems !! i = Some item ->
         exists li, line_items !! i = Some li /\ line_item h item = Normal li)
  /\ (Forall (fun item => nullish item = false) elems ->
      exists params, creates (snd (handler h ev)) = [params]).
Proof.
  intros HP E1 E2. rewrite (handler_creates h ev parsed elems HP E1 E2). split.
  - intros params Hin.
    destruct (Array_map (line_item h) elems) as [line_items|e] eqn:E3; [|destruct Hin].
    destruct Hin as [<-|[]]. exists line_items.
    pose proof (Array_map_Normal _ _ _ E3) as F.
    split; [reflexivity|]. split; [symmetry; exact (Forall2_length _ _ _ F)|].
    intros i item Hi.
    destruct (Forall2_lookup_l _ _ _ _ _ F Hi) as (li & Hli & Eli). eauto.
  - intros F. destruct (transform_completes h elems F) as [line_items ->]. eauto.
Qed.

(** Two items and their two line items, in the order of the items. *)
Lemma C4_line_items_follow_items_witness :
  exists params,
    creates (snd (handler node
                    (POST (Node.json "{`items`:[{`name`:`A`,`price`:100},{`name`:`B`,`price`:250,`quantity`:2}]}"))))
    = [params].
Proof.
  apply (proj2 (C4_line_items_follow_items node
                  (POST (Node.json "{`items`:[{`name`:`A`,`price`:100},{`name`:`B`,`price`:250,`quantity`:2}]}"))
                  (Node.read "{`items`:[{`name`:`A`,`price`:100},{`name`:`B`,`price`:250,`quantity`:2}]}")
                  [Node.read "{`name`:`A`,`price`:100}";
                   Node.read "{`name`:`B`,`price`:250,`quantity`:2}"]
                  eq_refl eq_refl eq_refl)).
  repeat constructor.
Defined.

(** C8.  On a POST request whose items are an array, when the transform
    completes and the provider returns a session, the answer is 200 with
    the JSON text of {url: session.url}, after the one call of the
    provider; with no items the provider is called with no line items. *)
Theorem C8_session_url_relayed
  (h : host) (ev : event) (parsed : value) (elems line_items : list value)
  (session url : value) :
  httpMethod ev = VStr "POST" ->
  JSON_parse h (js_or (body ev) (VStr "{}")) = Normal parsed ->
  get h parsed "items" = Normal (VArr elems) ->
  Array_map (line_item h) elems = Normal line_items ->
  stripe_checkout_sessions_create h (session_params h line_items) = Normal session ->
  get h session "url" = Normal url ->
  handler h ev =
    (Normal {| statusCode := 200;
               response_body := JSON_stringify h (VObj [("url", url)]) |},
     [Create (session_params h line_items)])
  /\ (elems = [] ->
      line_items = [] /\
      get h (session_params h line_items) "line_items" = Normal (VArr [])).
Proof.
  intros HP E1 E2 E3 E4 E5. split.
  - rewrite (handler_POST h ev HP).
    rewrite (try_block_create h ev parsed elems line_items E1 E2 E3), E4, E5.
    reflexivity.
  - intros ->. rewrite Array_map_nil in E3. injection E3 as <-. split; reflexivity.
Qed.

Lemma C8_session_url_relayed_witness :
  handler node (POST (Node.json "{`items`:[]}")) =
    (Normal {| statusCode := 200;
               response_body :=
                 VStr (Node.json "{`url`:`https://checkout.stripe.com/c/pay/cs_test_a1`}") |},
     [Create (session_params node [])]).
Proof.
  apply (proj1 (C8_session_url_relayed node
                  (POST (Node.json "{`items`:[]}")) (VObj [("items", VArr [])]) [] []
                  Node.session (VStr "https://checkout.stripe.com/c/pay/cs_test_a1")
                  eq_refl eq_refl eq_refl eq_refl eq_refl eq_refl)).
Defined.

(** C7, as amended.  On a POST request whose items are an array on which
    the transform completes, the provider is called once, with card as the
    only payment method, the line items of the transform, the mode payment,
    and as success and cancel URLs those of the environment, each replaced
    by its placeholder when it is not set (or set to the empty string). *)
Theorem C7_provider_called_once
  (h : host) (ev : event) (parsed : value) (elems line_items : list value) :
  httpMethod ev = VStr "POST" ->
  JSON_parse h (js_or (body ev) (VStr "{}")) = Normal parsed ->
  get h parsed "items" = Normal (VArr elems) ->
  Array_map (line_item h) elems = Normal line_items ->
  exists params,
    creates (snd (handler h ev)) = [params] /\
    get h params "payment_method_types" = Normal (VArr [VStr "card"]) /\
    get h params "line_items" = Normal (VArr line_items) /\
    get h params "mode" = Normal (VStr "payment") /\
    get h params "success_url" =
      Normal (match process_env h !! "SUCCESS_URL" with
              | Some url =>
                  if String.eqb url EmptyString then VStr "https://example.com/success"
                  else VStr url
              | None => VStr "https://example.com/success"
              end) /\
    get h params "cancel_url" =
      Normal (match process_env h !! "CANCEL_URL" with
              | Some url =>
                  if String.eqb url EmptyString then VStr "https://example.com/cancel"
                  else VStr url
              | None => VStr "https://example.com/cancel"
              end).
Proof.
  intros HP E1 E2 E3. exists (session_params h line_items).
  rewrite (handler_creates h ev parsed elems HP E1 E2), E3.
  repeat (split; [reflexivity|]).
  split.
  - cbn. unfold env. destruct (process_env h !! "SUCCESS_URL") as [url|]; [|reflexivity].
    unfold js_or. simpl. destruct (String.eqb url EmptyString); reflexivity.
  - cbn. unfold env. destruct (process_env h !! "CANCEL_URL") as [url|]; [|reflexivity].
    unfold js_or. simpl. destruct (String.eqb url EmptyString); reflexivity.
Qed.

(** One item, a success URL in the environment and no cancel URL. *)
Lemma C7_provider_called_once_witness :
  exists params,
    creates (snd (handler shop
                    (POST (Node.json "{`items`:[{`name`:`Widget`,`price`:499}]}"))))
      = [params] /\
    get shop
        params "success_url" = Normal (VStr "https://shop.test/thanks") /\
    get shop
        params "cancel_url" = Normal (VStr "https://example.com/cancel").
Proof.
  destruct (C7_provider_called_once
              shop
              (POST (Node.json "{`items`:[{`name`:`Widget`,`price`:499}]}"))
              (Node.read "{`items`:[{`name`:`Widget`,`price`:499}]}")
              [Node.read "{`name`:`Widget`,`price`:499}"]
              [made (VStr "Widget") (VNum (number_of_Z 499)) VUndefined]
              eq_refl eq_refl eq_refl eq_refl)
    as (params & E1 & _ & _ & _ & E2 & E3).
  exists params. split; [exact E1|]. split; [exact E2|exact E3].
Defined.

(** C7, as stated, fails on the body {items: [null]}: its items are an
    array, so that it passes the check of the shape, and the provider is
    not called, as the transform throws; the answer is 500. *)
Lemma C7_counterexample :
  httpMethod (POST (Node.json "{`items`:[null]}")) = VStr "POST"
  /\ JSON_parse node
       (js_or (body (POST (Node.json "{`items`:[null]}"))) (VStr "{}"))
     = Normal (VObj [("items", VArr [VNull])])
  /\ Array_isArray (own_property [("items", VArr [VNull])] "items") = true
  /\ creates (snd (handler node (POST (Node.json "{`items`:[null]}"))))
     = []
  /\ fst (handler node (POST (Node.json "{`items`:[null]}"))) =
     Normal {| statusCode := 500;
               response_body :=
                 VStr (Node.json "{`error`:`Cannot read properties of null (reading 'name')`}") |}.
Proof. repeat split; vm_compute; reflexivity. Qed.

(** C10.  On a POST request whose items are an array with an element that
    is null or undefined, the transform throws the TypeError of the read of
    [name] on such an element: the answer is 500, that error is logged and
    the provider is not called.  An element that is a boolean, a number or
    a string does not throw: its line item has an undefined name, an
    undefined price and the quantity 1, and an array of such elements is
    sent to the provider as so many such line items. *)
Theorem C10_nullish_item_is_500
  (h : host) (ev : event) (parsed : value) (elems : list value) :
  httpMethod ev = VStr "POST" ->
  JSON_parse h (js_or (body ev) (VStr "{}")) = Normal parsed ->
  get h parsed "items" = Normal (VArr elems) ->
  (Exists (fun item => nullish item = true) elems ->
   exists item,
     In item elems /\ nullish item = true /\
     handler h ev =
       (Normal {| statusCode := 500;
                  response_body := JSON_stringify h
                    (VObj [("error", VStr (nullish_read_message h item "name"))]) |},
        [ConsoleError [VStr "Stripe checkout error:";
                       VError "TypeError" (nullish_read_message h item "name")]]))
  /\ (forall item,
        primitive item = true ->
        line_item h item = Normal (made VUndefined VUndefined VUndefined) /\
        get_path h (made VUndefined VUndefined VUndefined) ["price_data"; "product_data"; "name"]
          = Normal VUndefined /\
        get_path h (made VUndefined VUndefined VUndefined) ["price_data"; "unit_amount"]
          = Normal VUndefined /\
        get h (made VUndefined VUndefined VUndefined) "quantity"
          = Normal (VNum (number_of_Z 1)))
  /\ (Forall (fun item => primitive item = true) elems ->
      creates (snd (handler h ev)) =
        [session_params h (map (fun _ => made VUndefined VUndefined VUndefined) elems)]).
Proof.
  intros HP E1 E2.
  assert (P : forall item, primitive item = true ->
                line_item h item = Normal (made VUndefined VUndefined VUndefined)).
  { intros item Hp. destruct item; try discriminate Hp; reflexivity. }
  split; [|split].
  - intros X. destruct (transform_throws h elems X) as (item & Hin & Hn & E3).
    exists item. split; [exact Hin|]. split; [exact Hn|].
    rewrite (handler_POST h ev HP), (try_block_map_throw h ev parsed elems _ E1 E2 E3).
    reflexivity.
  - intros item Hp. split; [exact (P item Hp)|]. repeat split.
  - intros F. rewrite (handler_creates h ev parsed elems HP E1 E2).
    rewrite (Array_map_pointwise (line_item h)
               (fun _ => made VUndefined VUndefined VUndefined) elems); [reflexivity|].
    eapply Forall_impl; [exact F|]. exact P.
Qed.

(** An item, then null. *)
Lemma C10_nullish_item_is_500_witness :
  exists item,
    In item [Node.read "{`name`:`A`,`price`:1}"; VNull] /\ nullish item = true /\
    handler node
      (POST (Node.json "{`items`:[{`name`:`A`,`price`:1},null]}")) =
      (Normal {| statusCode := 500;
                 response_body := JSON_stringify node
                   (VObj [("error",
                           VStr (nullish_read_message node item "name"))]) |},
       [ConsoleError [VStr "Stripe checkout error:";
                      VError "TypeError"
                        (nullish_read_message node item "name")]]).
Proof.
  apply (proj1 (C10_nullish_item_is_500 node
                  (POST (Node.json "{`items`:[{`name`:`A`,`price`:1},null]}"))
                  (Node.read "{`items`:[{`name`:`A`,`price`:1},null]}")
                  [Node.read "{`name`:`A`,`price`:1}"; VNull]
                  eq_refl eq_refl eq_refl)).
  apply Exists_cons_tl, Exists_cons_hd. reflexivity.
Defined.

(** * Further properties of the handler *)

(** ** Every path *)

(** The try statement ends in one of the ways of [try_path]. *)
Lemma try_block_path (h : host) (ev : event) :
  try_path h ev (fst (try_block h ev)) (snd (try_block h ev)).
Proof.
  destruct (JSON_parse h (js_or (body ev) (VStr "{}"))) as [parsed|e] eqn:E1.
  2: { rewrite (try_block_parse_throw h ev e E1). apply path_parse_throws, E1. }
  destruct (get h parsed "items") as [items|e] eqn:E2.
  2: { rewrite (try_block_items_throw h ev parsed e E1 E2). eapply path_items_throws; eauto. }
  destruct (Array_isArray items) eqn:E3.
  2: { rewrite (try_block_not_array h ev parsed items E1 E2 E3).
       eapply path_not_array; eauto. }
  destruct items as [| | | | |elems| |]; try discriminate E3.
  destruct (Array_map (line_item h) elems) as [line_items|e] eqn:E4.
  2: { rewrite (try_block_map_throw h ev parsed elems e E1 E2 E4).
       eapply path_map_throws; eauto. }
  rewrite (try_block_create h ev parsed elems line_items E1 E2 E4).
  destruct (stripe_checkout_sessions_create h (session_params h line_items))
    as [session|e] eqn:E5; [|eapply path_create_throws; eauto].
  destruct (get h session "url") as [url|e] eqn:E6;
    [eapply path_success|eapply path_url_throws]; eauto.
Qed.

Lemma strict_neq_str_false (v : value) (s : string) :
  strict_neq_str v s = false -> v = VStr s.
Proof.
  destruct v; simpl; try discriminate.
  destruct (String.eqb_spec s0 s) as [->|]; [reflexivity|discriminate].
Qed.

(** The gate of the method: 405 at once, or the try statement. *)
Lemma method_gate (h : host) (ev : event) :
  (httpMethod ev <> VStr "POST" /\
   handler h ev =
     (Normal {| statusCode := 405; response_body := VStr "Method Not Allowed" |}, []))
  \/ (httpMethod ev = VStr "POST" /\
      handler h ev = try_catch (try_block h ev) (catch_clause h)).
Proof.
  destruct (strict_neq_str (httpMethod ev) "POST") eqn:E.
  - left. split.
    + intros E'. rewrite E' in E. discriminate E.
    + unfold handler. rewrite E. reflexivity.
  - right. pose proof (strict_neq_str_false _ _ E) as E'. split; [exact E'|].
    apply handler_POST, E'.
Qed.

(** The catch clause on a caught value: 500 with its message, or, when the
    value is null or undefined, the TypeError of the read of [message]. *)
Lemma catch_clause_cases (h : host) (error : value) :
  (nullish error = false /\
   exists message,
     get h error "message" = Normal message /\
     catch_clause h error =
       (Normal {| statusCode := 500;
                  response_body := JSON_stringify h (VObj [("error", message)]) |},
        [log_line error]))
  \/ (nullish error = true /\
      catch_clause h error =
        (Throw (VError "TypeError" (nullish_read_message h error "message")),
         [log_line error])).
Proof.
  destruct (nullish error) eqn:E; [right|left]; split; try reflexivity.
  - unfold catch_clause, console_error. run.
    rewrite (get_nullish h error "message" E). reflexivity.
  - destruct (get_not_nullish h error "message" E) as [m Em].
    exists m. split; [exact Em|]. apply catch_clause_message, Em.
Qed.

(** The outcomes of the handler on a POST request, by the path taken. *)
Lemma handler_POST_cases (h : host) (ev : event) :
  httpMethod ev = VStr "POST" ->
  exists c t,
    try_block h ev = (c, t) /\
    try_path h ev c t /\
    match c with
    | Normal r => handler h ev = (Normal r, t)
    | Throw error =>
        handler h ev = (fst (catch_clause h error), (t ++ [log_line error])%list)
    end.
Proof.
  intros HP. exists (fst (try_block h ev)), (snd (try_block h ev)).
  split; [destruct (try_block h ev); reflexivity|].
  split; [apply try_block_path|].
  rewrite (handler_POST h ev HP).
  destruct (try_block h ev) as [[r|error] t]; cbn [fst snd try_catch]; [reflexivity|].
  destruct (catch_clause_cases h error) as [(_ & m & _ & E)|(_ & E)]; rewrite E; reflexivity.
Qed.

(** What the try statement has done when it throws: nothing, or the one
    call of the provider. *)
Lemma throw_path_effects (h : host) (ev : event) (e : value) (t : list effect) :
  try_path h ev (Throw e) t ->
  t = [] \/ exists line_items, t = [Create (session_params h line_items)].
Proof. intros P. inversion P; subst; eauto. Qed.

Lemma get_Throw_inv (h : host) (v e : value) (k : string) :
  get h v k = Throw e ->
  nullish v = true /\ e = VError "TypeError" (nullish_read_message h v k).
Proof. destruct v; simpl; intros E; try discriminate E; injection E as <-; auto. Qed.

(** What the try statement throws: what JSON.parse or the provider threw,
    or a TypeError of the engine. *)
Lemma throw_path_source (h : host) (ev : event) (e : value) (t : list effect) :
  try_path h ev (Throw e) t ->
  (exists text, JSON_parse h text = Throw e)
  \/ (exists params, stripe_checkout_sessions_create h params = Throw e)
  \/ (exists message, e = VError "TypeError" message).
Proof.
  intros P. inversion P; subst; eauto; right; right.
  - match goal with H : get _ _ _ = Throw _ |- _ => apply get_Throw_inv in H as [_ ->] end.
    eauto.
  - match goal with H : Array_map _ _ = Throw _ |- _ =>
      destruct (transform_Throw_inv h _ _ H) as (v & _ & _ & ->) end.
    eauto.
  - match goal with H : get _ _ _ = Throw _ |- _ => apply get_Throw_inv in H as [_ ->] end.
    eauto.
Qed.

(** The five outcomes of the handler. *)
Lemma handler_outcomes (h : host) (ev : event) :
  (httpMethod ev <> VStr "POST" /\
   handler h ev =
     (Normal {| statusCode := 405; response_body := VStr "Method Not Allowed" |}, []))
  \/ (httpMethod ev = VStr "POST" /\
      exists parsed items,
        JSON_parse h (js_or (body ev) (VStr "{}")) = Normal parsed /\
        get h parsed "items" = Normal items /\
        Array_isArray items = false /\
        handler h ev =
          (Normal {| statusCode := 400;
                     response_body := JSON_stringify h
                       (VObj [("error", VStr "Invalid payload: items must be an array")]) |},
           []))
  \/ (httpMethod ev = VStr "POST" /\
      exists parsed elems line_items session url,
        JSON_parse h (js_or (body ev) (VStr "{}")) = Normal parsed /\
        get h parsed "items" = Normal (VArr elems) /\
        Array_map (line_item h) elems = Normal line_items /\
        stripe_checkout_sessions_create h (session_params h line_items) = Normal session /\
        get h session "url" = Normal url /\
        handler h ev =
          (Normal {| statusCode := 200;
                     response_body := JSON_stringify h (VObj [("url", url)]) |},
           [Create (session_params h line_items)]))
  \/ (httpMethod ev = VStr "POST" /\
      exists error t message,
        try_block h ev = (Throw error, t) /\
        try_path h ev (Throw error) t /\
        get h error "message" = Normal message /\
        handler h ev =
          (Normal {| statusCode := 500;
                     response_body := JSON_stringify h (VObj [("error", message)]) |},
           (t ++ [log_line error])%list))
  \/ (httpMethod ev = VStr "POST" /\
      exists error t,
        try_block h ev = (Throw error, t) /\
        try_path h ev (Throw error) t /\
        nullish error = true /\
        handler h ev =
          (Throw (VError "TypeError" (nullish_read_message h error "message")),
           (t ++ [log_line error])%list)).
Proof.
  destruct (method_gate h ev) as [[HM E]|[HP _]]; [left; auto|right].
  destruct (handler_POST_cases h ev HP) as (c & t & B & P & E).
  destruct c as [r|error].
  - inversion P; subst.
    + left. split; [exact HP|]. exists parsed, items. auto.
    + right; left. split; [exact HP|]. exists parsed, elems, line_items, session, url.
      repeat (split; [assumption|]). exact E.
  - right; right.
    destruct (catch_clause_cases h error) as [(_ & m & Em & Ec)|(En & Ec)];
      rewrite Ec in E; cbn [fst] in E; [left|right]; (split; [exact HP|]).
    + exists error, t, m. auto.
    + exists error, t. auto.
Qed.

(** ** Statuses and effects *)

(** X1.  The handler answers with one of four statuses. *)
Theorem handler_status_codes (h : host) (ev : event) (r : response) :
  fst (handler h ev) = Normal r ->
  statusCode r = 200 \/ statusCode r = 400 \/ statusCode r = 405 \/ statusCode r = 500.
Proof.
  intros E.
  destruct (handler_outcomes h ev)
    as [(_ & O)|[(_ & ? & ? & _ & _ & _ & O)|[(_ & ? & ? & ? & ? & ? & _ & _ & _ & _ & _ & O)
       |[(_ & ? & ? & ? & _ & _ & _ & O)|(_ & ? & ? & _ & _ & _ & O)]]]];
    rewrite O in E; cbn [fst] in E; try discriminate E; injection E as <-; simpl; auto.
Qed.

Lemma handler_status_codes_witness :
  statusCode {| statusCode := 400;
                response_body :=
                  VStr (Node.json "{`error`:`Invalid payload: items must be an array`}") |}
    = 200
  \/ statusCode {| statusCode := 400;
                   response_body :=
                     VStr (Node.json "{`error`:`Invalid payload: items must be an array`}") |}
     = 400
  \/ statusCode {| statusCode := 400;
                   response_body :=
                     VStr (Node.json "{`error`:`Invalid payload: items must be an array`}") |}
     = 405
  \/ statusCode {| statusCode := 400;
                   response_body :=
                     VStr (Node.json "{`error`:`Invalid payload: items must be an array`}") |}
     = 500.
Proof.
  apply (handler_status_codes node (POST (Node.json "{`items`:{}}"))). reflexivity.
Defined.

(** X2.  The effects that go with each status: none with 405 and 400; the one
    call of the provider, and no log, with 200; with 500 one line logged,
    last, after the call of the provider if there was one.  Nothing is
    logged with another status than 500. *)
Theorem handler_effects_by_status (h : host) (ev : event) (r : response) (t : list effect) :
  handler h ev = (Normal r, t) ->
  (statusCode r = 405 \/ statusCode r = 400 -> t = [])
  /\ (statusCode r = 200 -> exists line_items, t = [Create (session_params h line_items)])
  /\ (statusCode r = 500 ->
      exists error,
        t = [log_line error]
        \/ exists line_items, t = [Create (session_params h line_items); log_line error])
  /\ (logged t <> [] -> statusCode r = 500).
Proof.
  intros E.
  destruct (handler_outcomes h ev)
    as [(_ & O)|[(_ & ? & ? & _ & _ & _ & O)|[(_ & ? & ? & lis & ? & ? & _ & _ & _ & _ & _ & O)
       |[(_ & error & t' & ? & _ & P & _ & O)|(_ & ? & ? & _ & _ & _ & O)]]]];
    rewrite O in E; try discriminate E; injection E as <- <-; cbn [statusCode].
  - repeat split; try discriminate; try reflexivity. intros L. contradiction L; reflexivity.
  - repeat split; try discriminate; try reflexivity. intros L. contradiction L; reflexivity.
  - repeat split; try discriminate.
    + intros [|]; discriminate.
    + intros _. exists lis. reflexivity.
    + intros L. contradiction L; reflexivity.
  - repeat split; try discriminate.
    + intros [|]; discriminate.
    + intros _. exists error.
      destruct (throw_path_effects h ev error t' P) as [->|[lis ->]]; [left|right]; eauto.
Qed.

(** The body {items: []} with a provider that accepts: status 200, and
    the one call. *)
Lemma handler_effects_by_status_witness :
  exists line_items,
    [Create (session_params node [])] = [Create (session_params node line_items)].
Proof.
  apply (proj1 (proj2
           (handler_effects_by_status node (POST (Node.json "{`items`:[]}"))
              {| statusCode := 200;
                 response_body :=
                   VStr (Node.json "{`url`:`https://checkout.stripe.com/c/pay/cs_test_a1`}") |}
              [Create (session_params node [])] eq_refl))).
  reflexivity.
Defined.

(** X3.  Whatever the outcome, the provider is called at most once and at most
    one line is logged, and a line that is logged is the last effect. *)
Theorem handler_effects_shape (h : host) (ev : event) :
  exists calls logs,
    snd (handler h ev) = (calls ++ logs)%list
    /\ (calls = [] \/ exists line_items, calls = [Create (session_params h line_items)])
    /\ (logs = [] \/ exists error, logs = [log_line error])
    /\ (length (creates (snd (handler h ev))) <= 1)%nat
    /\ (length (logged (snd (handler h ev))) <= 1)%nat.
Proof.
  destruct (handler_outcomes h ev)
    as [(_ & O)|[(_ & ? & ? & _ & _ & _ & O)|[(_ & ? & ? & lis & ? & ? & _ & _ & _ & _ & _ & O)
       |[(_ & error & t & ? & _ & P & _ & O)|(_ & error & t & _ & P & _ & O)]]]];
    rewrite O; cbn [snd].
  - exists [], []. simpl. repeat split; auto; lia.
  - exists [], []. simpl. repeat split; auto; lia.
  - exists [Create (session_params h lis)], []. simpl. repeat split; eauto; lia.
  - exists t, [log_line error].
    destruct (throw_path_effects h ev error t P) as [->|[lis ->]]; simpl;
      repeat split; eauto; lia.
  - exists t, [log_line error].
    destruct (throw_path_effects h ev error t P) as [->|[lis ->]]; simpl;
      repeat split; eauto; lia.
Qed.

(** ** Rejection *)

(** X4.  The promise of the handler is rejected only when what JSON.parse or
    the provider threw is null or undefined: the read of its message in the
    catch clause then throws a TypeError, after the line was logged.  With
    a JSON.parse and a provider that throw no such value, the handler
    answers every event. *)
Theorem handler_rejects_only_on_nullish (h : host) (ev : event) :
  (forall e,
     fst (handler h ev) = Throw e ->
     exists error,
       nullish error = true /\
       e = VError "TypeError" (nullish_read_message h error "message") /\
       In (log_line error) (snd (handler h ev)) /\
       ((exists text, JSON_parse h text = Throw error)
        \/ (exists params, stripe_checkout_sessions_create h params = Throw error)))
  /\ ((forall text e, JSON_parse h text = Throw e -> nullish e = false) ->
      (forall params e, stripe_checkout_sessions_create h params = Throw e -> nullish e = false) ->
      exists r, fst (handler h ev) = Normal r).
Proof.
  assert (G : forall e,
     fst (handler h ev) = Throw e ->
     exists error,
       nullish error = true /\
       e = VError "TypeError" (nullish_read_message h error "message") /\
       In (log_line error) (snd (handler h ev)) /\
       ((exists text, JSON_parse h text = Throw error)
        \/ (exists params, stripe_checkout_sessions_create h params = Throw error))).
  { intros e E.
    destruct (handler_outcomes h ev)
      as [(_ & O)|[(_ & ? & ? & _ & _ & _ & O)|[(_ & ? & ? & ? & ? & ? & _ & _ & _ & _ & _ & O)
         |[(_ & ? & ? & ? & _ & _ & _ & O)|(_ & error & t & _ & P & N & O)]]]];
      rewrite O in E |- *; cbn [fst snd] in *; try discriminate E.
    injection E as <-. exists error. split; [exact N|]. split; [reflexivity|].
    split; [apply in_or_app; right; left; reflexivity|].
    destruct (throw_path_source h ev error t P) as [S|[S|[m ->]]]; auto.
    discriminate N. }
  split; [exact G|].
  intros HJ HS. destruct (fst (handler h ev)) as [r|e] eqn:E; [eauto|].
  destruct (G e eq_refl) as (error & N & _ & _ & [[text S]|[params S]]).
  - rewrite (HJ text error S) in N. discriminate N.
  - rewrite (HS params error S) in N. discriminate N.
Qed.

(** A provider that rejects with undefined: the handler rejects too.
    Node, whose JSON.parse throws a SyntaxError and whose provider accepts,
    answers a body that is not JSON. *)
Lemma handler_rejects_only_on_nullish_witness :
  (exists error,
     nullish error = true /\
     VError "TypeError" "Cannot read properties of undefined (reading 'message')" =
       VError "TypeError" (nullish_read_message node_without_reason error "message") /\
     In (log_line error)
        (snd (handler node_without_reason (POST (Node.json "{`items`:[]}")))) /\
     ((exists text, JSON_parse node_without_reason text = Throw error)
      \/ (exists params,
            stripe_checkout_sessions_create node_without_reason params = Throw error)))
  /\ (exists r, fst (handler node (POST "oops")) = Normal r).
Proof.
  split.
  - apply (proj1 (handler_rejects_only_on_nullish node_without_reason
                    (POST (Node.json "{`items`:[]}")))).
    reflexivity.
  - apply (proj2 (handler_rejects_only_on_nullish node (POST "oops"))).
    + intros text e. simpl. unfold Node.parse.
      destruct (Node.parse_text (Node.ToString text)); [discriminate|].
      intros [= <-]. reflexivity.
    + intros params e. discriminate.
Defined.

(** ** The body *)

(** X5.  A body that is falsy (undefined, null, the empty string, false, a
    zero, NaN) is parsed as the text of the empty object, which has no
    items: the answer is the 400 of the shape check. *)
Theorem falsy_body_is_invalid_payload (h : host) (ev : event) :
  httpMethod ev = VStr "POST" ->
  ToBoolean (body ev) = false ->
  JSON_parse h (VStr "{}") = Normal (VObj []) ->
  handler h ev =
    (Normal {| statusCode := 400;
               response_body := JSON_stringify h
                 (VObj [("error", VStr "Invalid payload: items must be an array")]) |},
     []).
Proof.
  intros HP HB E.
  rewrite (handler_POST h ev HP).
  rewrite (try_block_not_array h ev (VObj []) VUndefined); try reflexivity.
  unfold js_or. rewrite HB. exact E.
Qed.

(** A POST with no body. *)
Lemma falsy_body_is_invalid_payload_witness :
  handler node {| httpMethod := VStr "POST"; body := VNull |} =
    (Normal {| statusCode := 400;
               response_body :=
                 VStr (Node.json "{`error`:`Invalid payload: items must be an array`}") |},
     []).
Proof.
  apply (falsy_body_is_invalid_payload node {| httpMethod := VStr "POST"; body := VNull |}
           eq_refl eq_refl eq_refl).
Defined.

(** ** What is sent to the provider *)

(** Whatever is sent to the provider comes from a body that was parsed,
    with items that are an array on which the transform completed. *)
Lemma creates_inv (h : host) (ev : event) (params : value) :
  In params (creates (snd (handler h ev))) ->
  exists parsed elems line_items,
    JSON_parse h (js_or (body ev) (VStr "{}")) = Normal parsed /\
    get h parsed "items" = Normal (VArr elems) /\
    Array_map (line_item h) elems = Normal line_items /\
    params = session_params h line_items.
Proof.
  destruct (method_gate h ev) as [[_ E]|[HP _]]; [rewrite E; intros []|].
  destruct (JSON_parse h (js_or (body ev) (VStr "{}"))) as [parsed|e] eqn:E1.
  2: { rewrite (handler_POST h ev HP), try_catch_effects,
         (try_block_parse_throw h ev e E1). cbn [fst snd app].
       rewrite catch_clause_effects. intros []. }
  destruct (get h parsed "items") as [items|e] eqn:E2.
  2: { rewrite (handler_POST h ev HP), try_catch_effects,
         (try_block_items_throw h ev parsed e E1 E2). cbn [fst snd app].
       rewrite catch_clause_effects. intros []. }
  destruct (Array_isArray items) eqn:E3.
  2: { rewrite (handler_POST h ev HP), try_catch_effects,
         (try_block_not_array h ev parsed items E1 E2 E3). intros []. }
  destruct items as [| | | | |elems| |]; try discriminate E3.
  rewrite (handler_creates h ev parsed elems HP E1 E2).
  destruct (Array_map (line_item h) elems) as [line_items|e] eqn:E4; [|intros []].
  intros [<-|[]]. exists parsed, elems, line_items. auto.
Qed.

Lemma js_or_truthy (a b : value) :
  ToBoolean b = true -> ToBoolean (js_or a b) = true.
Proof. intros E. unfold js_or. destruct (ToBoolean a) eqn:Ea; assumption. Qed.

(** X6.  No line item that is sent to the provider has a falsy quantity: not 0,
    not null, not undefined, not NaN, not false, not the empty string. *)
Theorem sent_quantities_are_truthy (h : host) (ev : event) (params : value) :
  In params (creates (snd (handler h ev))) ->
  exists line_items,
    get h params "line_items" = Normal (VArr line_items) /\
    Forall (fun li => exists quantity,
                        get h li "quantity" = Normal quantity /\
                        ToBoolean quantity = true) line_items.
Proof.
  intros Hin.
  destruct (creates_inv h ev params Hin) as (parsed & elems & line_items & _ & _ & E & ->).
  exists line_items. split; [reflexivity|].
  pose proof (Array_map_Normal _ _ _ E) as F.
  clear E Hin. induction F as [|item li elems line_items E _ IH]; constructor; [|exact IH].
  destruct (line_item_Normal h item li E) as (name & price & quantity & _ & _ & _ & ->).
  eexists. split; [reflexivity|]. apply js_or_truthy. reflexivity.
Qed.

(** Quantities 0, null and the empty string, all sent as 1. *)
Lemma sent_quantities_are_truthy_witness :
  exists line_items,
    get node
      (session_params node
         [made (VStr "A") VUndefined (VNum (S754_zero false));
          made (VStr "B") VUndefined VNull;
          made (VStr "C") VUndefined (VStr EmptyString)])
      "line_items" = Normal (VArr line_items) /\
    Forall (fun li => exists quantity,
                        get node li "quantity" = Normal quantity /\
                        ToBoolean quantity = true) line_items.
Proof.
  apply (sent_quantities_are_truthy node
           (POST (Node.json
              "{`items`:[{`name`:`A`,`quantity`:0},{`name`:`B`,`quantity`:null},{`name`:`C`,`quantity`:``}]}"))).
  left. reflexivity.
Defined.

(** X7.  Whatever is sent to the provider has card as its only payment method,
    the mode payment, and success and cancel URLs that are strings and are
    not empty, whatever the environment. *)
Theorem sent_session_is_complete (h : host) (ev : event) (params : value) :
  In params (creates (snd (handler h ev))) ->
  get h params "payment_method_types" = Normal (VArr [VStr "card"])
  /\ get h params "mode" = Normal (VStr "payment")
  /\ (exists url, get h params "success_url" = Normal (VStr url) /\ url <> EmptyString)
  /\ (exists url, get h params "cancel_url" = Normal (VStr url) /\ url <> EmptyString).
Proof.
  intros Hin.
  destruct (creates_inv h ev params Hin) as (parsed & elems & line_items & _ & _ & _ & ->).
  split; [reflexivity|]. split; [reflexivity|].
  assert (G : forall name placeholder,
            placeholder <> EmptyString ->
            exists url, js_or (env h name) (VStr placeholder) = VStr url /\ url <> EmptyString).
  { intros name placeholder Hp. unfold env, js_or.
    destruct (process_env h !! name) as [url|]; simpl.
    - destruct (String.eqb_spec url EmptyString) as [->|Hu]; simpl; eauto.
    - eauto. }
  split.
  - destruct (G "SUCCESS_URL" "https://example.com/success") as (url & E & Hu); [discriminate|].
    exists url. split; [|exact Hu]. cbn. rewrite E. reflexivity.
  - destruct (G "CANCEL_URL" "https://example.com/cancel") as (url & E & Hu); [discriminate|].
    exists url. split; [|exact Hu]. cbn. rewrite E. reflexivity.
Qed.

(** An environment in which both URLs are set to the empty string. *)
Lemma sent_session_is_complete_witness :
  get node_empty_urls (session_params node_empty_urls []) "payment_method_types"
    = Normal (VArr [VStr "card"])
  /\ get node_empty_urls (session_params node_empty_urls []) "mode"
     = Normal (VStr "payment")
  /\ (exists url,
        get node_empty_urls (session_params node_empty_urls []) "success_url"
          = Normal (VStr url) /\ url <> EmptyString)
  /\ (exists url,
        get node_empty_urls (session_params node_empty_urls []) "cancel_url"
          = Normal (VStr url) /\ url <> EmptyString).
Proof.
  apply (sent_session_is_complete node_empty_urls (POST (Node.json "{`items`:[]}"))).
  left. reflexivity.
Defined.

(** ** The session *)

(** X8.  When the promise of the provider is fulfilled with null or undefined,
    the read of [session.url] throws: the answer is 500 with the message
    of that TypeError, logged after the call of the provider. *)
Theorem nullish_session_is_500
  (h : host) (ev : event) (parsed : value) (elems line_items : list value) (session : value) :
  httpMethod ev = VStr "POST" ->
  JSON_parse h (js_or (body ev) (VStr "{}")) = Normal parsed ->
  get h parsed "items" = Normal (VArr elems) ->
  Array_map (line_item h) elems = Normal line_items ->
  stripe_checkout_sessions_create h (session_params h line_items) = Normal session ->
  nullish session = true ->
  handler h ev =
    (Normal {| statusCode := 500;
               response_body := JSON_stringify h
                 (VObj [("error", VStr (nullish_read_message h session "url"))]) |},
     [Create (session_params h line_items);
      log_line (VError "TypeError" (nullish_read_message h session "url"))]).
Proof.
  intros HP E1 E2 E3 E4 N.
  rewrite (handler_POST h ev HP), (try_block_create h ev parsed elems line_items E1 E2 E3).
  rewrite E4, (get_nullish h session "url" N). reflexivity.
Qed.

Lemma nullish_session_is_500_witness :
  handler node_null_session (POST (Node.json "{`items`:[]}")) =
    (Normal {| statusCode := 500;
               response_body :=
                 VStr (Node.json "{`error`:`Cannot read properties of null (reading 'url')`}") |},
     [Create (session_params node_null_session []);
      log_line (VError "TypeError" "Cannot read properties of null (reading 'url')")]).
Proof.
  apply (nullish_session_is_500 node_null_session (POST (Node.json "{`items`:[]}"))
           (VObj [("items", VArr [])]) [] [] VNull
           eq_refl eq_refl eq_refl eq_refl eq_refl eq_refl).
Defined.

(** X9.  When the session that the provider returns is an object without a
    URL, the answer is still 200, with the JSON text of {url: undefined}. *)
Theorem session_without_url_is_200
  (h : host) (ev : event) (parsed : value) (elems line_items : list value)
  (props : list (string * value)) :
  httpMethod ev = VStr "POST" ->
  JSON_parse h (js_or (body ev) (VStr "{}")) = Normal parsed ->
  get h parsed "items" = Normal (VArr elems) ->
  Array_map (line_item h) elems = Normal line_items ->
  stripe_checkout_sessions_create h (session_params h line_items) = Normal (VObj props) ->
  has_property props "url" = false ->
  handler h ev =
    (Normal {| statusCode := 200;
               response_body := JSON_stringify h (VObj [("url", VUndefined)]) |},
     [Create (session_params h line_items)]).
Proof.
  intros HP E1 E2 E3 E4 N.
  rewrite (handler_POST h ev HP), (try_block_create h ev parsed elems line_items E1 E2 E3).
  rewrite E4. simpl. rewrite (own_property_absent props "url" N). reflexivity.
Qed.

(** On Node that text is the one of the empty object. *)
Lemma session_without_url_is_200_witness :
  handler node_bare_session (POST (Node.json "{`items`:[]}")) =
    (Normal {| statusCode := 200; response_body := VStr "{}" |},
     [Create (session_params node_bare_session [])]).
Proof.
  apply (session_without_url_is_200 node_bare_session (POST (Node.json "{`items`:[]}"))
           (VObj [("items", VArr [])]) [] [] [("id", VStr "cs_test_a1")]
           eq_refl eq_refl eq_refl eq_refl eq_refl eq_refl).
Defined.

(** ** From the answer back to the request *)

Lemma get_Normal_not_nullish (h : host) (v x : value) (k : string) :
  get h v k = Normal x -> nullish v = false.
Proof. destruct v; simpl; intros E; try discriminate E; reflexivity. Qed.

(** The transform completes only on items none of which is null or
    undefined. *)
Lemma transform_Normal_not_nullish (h : host) (elems line_items : list value) :
  Array_map (line_item h) elems = Normal line_items ->
  Forall (fun item => nullish item = false) elems.
Proof.
  intros E. pose proof (Array_map_Normal _ _ _ E) as F. clear E.
  induction F as [|item li elems line_items E _ IH]; constructor; [|exact IH].
  destruct (line_item_Normal h item li E) as (name & _ & _ & En & _).
  exact (get_Normal_not_nullish h item name "name" En).
Qed.

(** X10.  What a status tells of the request.  405: the method is not POST.
    400: the method is POST, the body was parsed and its items are not an
    array.  200: the method is POST, the items are an array without null
    or undefined, the provider was called with a line item for each and
    returned a session, whose URL is the one of the answer.  500: the
    method is POST and something was thrown in the try statement. *)
Theorem status_tells_the_path (h : host) (ev : event) (r : response) :
  fst (handler h ev) = Normal r ->
  (statusCode r = 405 -> httpMethod ev <> VStr "POST")
  /\ (statusCode r = 400 ->
      httpMethod ev = VStr "POST" /\
      exists parsed items,
        JSON_parse h (js_or (body ev) (VStr "{}")) = Normal parsed /\
        get h parsed "items" = Normal items /\
        Array_isArray items = false)
  /\ (statusCode r = 200 ->
      httpMethod ev = VStr "POST" /\
      exists parsed elems line_items session url,
        JSON_parse h (js_or (body ev) (VStr "{}")) = Normal parsed /\
        get h parsed "items" = Normal (VArr elems) /\
        Forall (fun item => nullish item = false) elems /\
        Array_map (line_item h) elems = Normal line_items /\
        length line_items = length elems /\
        stripe_checkout_sessions_create h (session_params h line_items) = Normal session /\
        get h session "url" = Normal url /\
        response_body r = JSON_stringify h (VObj [("url", url)]))
  /\ (statusCode r = 500 ->
      httpMethod ev = VStr "POST" /\
      exists error message,
        fst (try_block h ev) = Throw error /\
        get h error "message" = Normal message /\
        response_body r = JSON_stringify h (VObj [("error", message)])).
Proof.
  intros E.
  destruct (handler_outcomes h ev)
    as [(HM & O)|[(HP & parsed & items & E1 & E2 & E3 & O)
       |[(HP & parsed & elems & lis & session & url & E1 & E2 & E3 & E4 & E5 & O)
       |[(HP & error & t & m & B & _ & Em & O)|(_ & ? & ? & _ & _ & _ & O)]]]];
    rewrite O in E; cbn [fst] in E; try discriminate E; injection E as <-; cbn [statusCode];
    (split; [|split; [|split]]); try discriminate; intros _.
  - exact HM.
  - split; [exact HP|]. exists parsed, items. auto.
  - split; [exact HP|]. exists parsed, elems, lis, session, url.
    split; [exact E1|]. split; [exact E2|].
    split; [exact (transform_Normal_not_nullish h elems lis E3)|].
    split; [exact E3|].
    split; [symmetry; exact (Forall2_length _ _ _ (Array_map_Normal _ _ _ E3))|].
    auto.
  - split; [exact HP|]. exists error, m.
    rewrite B. auto.
Qed.

(** A 400 of Node on a body whose items are an object. *)
Lemma status_tells_the_path_witness :
  httpMethod (POST (Node.json "{`items`:{}}")) = VStr "POST" /\
  exists parsed items,
    JSON_parse node (js_or (body (POST (Node.json "{`items`:{}}"))) (VStr "{}"))
      = Normal parsed /\
    get node parsed "items" = Normal items /\
    Array_isArray items = false.
Proof.
  apply (proj1 (proj2
           (status_tells_the_path node (POST (Node.json "{`items`:{}}"))
              {| statusCode := 400;
                 response_body :=
                   VStr (Node.json "{`error`:`Invalid payload: items must be an array`}") |}
              eq_refl))).
  reflexivity.
Defined.

(** ** What the handler reads of a request *)

Lemma line_item_ext (h : host) (a b : value) :
  get h a "name" = get h b "name" ->
  get h a "price" = get h b "price" ->
  get h a "quantity" = get h b "quantity" ->
  line_item h a = line_item h b.
Proof. intros E1 E2 E3. unfold line_item. rewrite E1, E2, E3. reflexivity. Qed.

Lemma Array_map_ext (f : value -> completion value) (l1 l2 : list value) :
  Forall2 (fun a b => f a = f b) l1 l2 ->
  Array_map f l1 = Array_map f l2.
Proof.
  induction 1 as [|a b l1 l2 E _ IH]; [reflexivity|].
  rewrite !Array_map_cons, E, IH. reflexivity.
Qed.

(** X11.  Of a POST request the handler uses the items of the body, and of each
    item its name, its price and its quantity: two requests whose items
    are arrays that agree on these, element by element, get the same
    answer with the same effects, whatever else their bodies and their
    items hold. *)
Theorem handler_reads_three_fields
  (h : host) (ev1 ev2 : event) (parsed1 parsed2 : value) (elems1 elems2 : list value) :
  httpMethod ev1 = VStr "POST" ->
  httpMethod ev2 = VStr "POST" ->
  JSON_parse h (js_or (body ev1) (VStr "{}")) = Normal parsed1 ->
  JSON_parse h (js_or (body ev2) (VStr "{}")) = Normal parsed2 ->
  get h parsed1 "items" = Normal (VArr elems1) ->
  get h parsed2 "items" = Normal (VArr elems2) ->
  Forall2 (fun a b => get h a "name" = get h b "name" /\
                      get h a "price" = get h b "price" /\
                      get h a "quantity" = get h b "quantity") elems1 elems2 ->
  handler h ev1 = handler h ev2.
Proof.
  intros HP1 HP2 P1 P2 I1 I2 F.
  assert (E : Array_map (line_item h) elems1 = Array_map (line_item h) elems2).
  { apply Array_map_ext. eapply Forall2_impl; [exact F|].
    intros a b (En & Ep & Eq). apply line_item_ext; assumption. }
  rewrite (handler_POST h ev1 HP1), (handler_POST h ev2 HP2).
  destruct (Array_map (line_item h) elems2) as [line_items|e] eqn:E2.
  - rewrite (try_block_create h ev1 parsed1 elems1 line_items P1 I1 E).
    rewrite (try_block_create h ev2 parsed2 elems2 line_items P2 I2 E2). reflexivity.
  - rewrite (try_block_map_throw h ev1 parsed1 elems1 e P1 I1 E).
    rewrite (try_block_map_throw h ev2 parsed2 elems2 e P2 I2 E2). reflexivity.
Qed.

(** A body with a coupon and an item with a SKU, and the same without. *)
Lemma handler_reads_three_fields_witness :
  handler node
    (POST (Node.json "{`coupon`:`Z`,`items`:[{`sku`:`w-1`,`name`:`Widget`,`price`:499}]}"))
  = handler node (POST (Node.json "{`items`:[{`price`:499,`name`:`Widget`}]}")).
Proof.
  apply (handler_reads_three_fields node
           (POST (Node.json "{`coupon`:`Z`,`items`:[{`sku`:`w-1`,`name`:`Widget`,`price`:499}]}"))
           (POST (Node.json "{`items`:[{`price`:499,`name`:`Widget`}]}"))
           (Node.read "{`coupon`:`Z`,`items`:[{`sku`:`w-1`,`name`:`Widget`,`price`:499}]}")
           (Node.read "{`items`:[{`price`:499,`name`:`Widget`}]}")
           [Node.read "{`sku`:`w-1`,`name`:`Widget`,`price`:499}"]
           [Node.read "{`price`:499,`name`:`Widget`}"]
           eq_refl eq_refl eq_refl eq_refl eq_refl eq_refl).
  repeat constructor.
Defined.

(** X12.  The provider is called only for a POST request whose body was parsed
    and whose items are an array without null or undefined, and then with
    a line item for each item: never for another method, a body that is
    not JSON, items that are not an array, or items one of which is null
    or undefined. *)
Theorem provider_called_only_after_transform (h : host) (ev : event) (params : value) :
  In params (creates (snd (handler h ev))) ->
  httpMethod ev = VStr "POST" /\
  exists parsed elems line_items,
    JSON_parse h (js_or (body ev) (VStr "{}")) = Normal parsed /\
    get h parsed "items" = Normal (VArr elems) /\
    Forall (fun item => nullish item = false) elems /\
    Array_map (line_item h) elems = Normal line_items /\
    length line_items = length elems /\
    params = session_params h line_items.
Proof.
  intros Hin. split.
  - destruct (method_gate h ev) as [[_ E]|[HP _]]; [|exact HP].
    rewrite E in Hin. destruct Hin.
  - destruct (creates_inv h ev params Hin) as (parsed & elems & line_items & E1 & E2 & E3 & ->).
    exists parsed, elems, line_items.
    split; [exact E1|]. split; [exact E2|].
    split; [exact (transform_Normal_not_nullish h elems line_items E3)|].
    split; [exact E3|].
    split; [symmetry; exact (Forall2_length _ _ _ (Array_map_Normal _ _ _ E3))|reflexivity].
Qed.

(** The call that a provider rejected. *)
Lemma provider_called_only_after_transform_witness :
  httpMethod (POST (Node.json "{`items`:[{`name`:`A`,`price`:100}]}")) = VStr "POST" /\
  exists parsed elems line_items,
    JSON_parse node_rejecting
      (js_or (body (POST (Node.json "{`items`:[{`name`:`A`,`price`:100}]}"))) (VStr "{}"))
      = Normal parsed /\
    get node_rejecting parsed "items" = Normal (VArr elems) /\
    Forall (fun item => nullish item = false) elems /\
    Array_map (line_item node_rejecting) elems = Normal line_items /\
    length line_items = length elems /\
    session_params node_rejecting [made (VStr "A") (VNum (number_of_Z 100)) VUndefined]
      = session_params node_rejecting line_items.
Proof.
  apply (provider_called_only_after_transform node_rejecting
           (POST (Node.json "{`items`:[{`name`:`A`,`price`:100}]}"))).
  left. reflexivity.
Defined.
